(** * FlaskChat: the conversation view-model of [static/script.js]

    The script is a browser client: one mutable variable
    ([currentConversationId]), a handful of DOM elements looked up once at
    start-up, and four asynchronous operations ([sendMessage],
    [loadConversation], [loadConversationHistory], [handleShare]) that talk
    to a REST back end through [fetch].

    The embedding is shallow.  The page (the variable, the elements the
    script touches, the browser location, the alerts and console lines, and
    the log of requests issued so far) is a record; an operation is a
    function in a state-and-exception monad over that record; the back end
    is a parameter that answers every request, as a function of all the
    requests issued so far.

    Conventions:
    - each operation is run to completion on its own; interleavings of
      several operations in flight at once are outside the model;
    - ids and [error] fields are dynamically typed values, with the
      truthiness, string conversion and loose equality of the language;
      the other fields of a response have the type the script uses them at;
    - a message element is recorded with its classes and its markdown
      source ([marked] is an external library); scrolling, the height of
      the input box and the theme are not recorded. *)

From Stdlib Require Import ZArith List String Ascii Bool Lia DecimalString.
From Stdlib Require Import DecimalPos.
Import ListNotations.
Local Open Scope string_scope.

(** ** The fragment of JavaScript values the script relies on *)

Module JS.

(** Conversation ids and [error] fields come out of JSON or out of the
    DOM, so they are dynamically typed.  Numbers are modelled by exact
    integers (ids are integers well inside the safe range); text is
    ASCII. *)
Inductive value : Type :=
| Undefined
| Null
| Num (n : Z)
| Str (s : string).

(** [ToBoolean]: what [if (v)] and [!v] test. *)
Definition truthy (v : value) : bool :=
  match v with
  | Undefined | Null => false
  | Num n => negb (n =? 0)%Z
  | Str s => negb (s =? "")
  end.

(** [ToString]: what a template literal [`${v}`], [new Error(v)] and an
    assignment to [dataset] do to a value. *)
Definition to_string (v : value) : string :=
  match v with
  | Undefined => "undefined"
  | Null => "null"
  | Num n => NilZero.string_of_int (Z.to_int n)
  | Str s => s
  end.

Definition code (c : ascii) : Z := Z.of_nat (nat_of_ascii c).

(** White space and line terminators, as [String.prototype.trim] and
    [StringToNumber] strip them (ASCII range). *)
Definition is_space (c : ascii) : bool :=
  let n := code c in ((9 <=? n) && (n <=? 13) || (n =? 32))%Z.

Definition is_digit (c : ascii) : bool :=
  let n := code c in ((48 <=? n) && (n <=? 57))%Z.

Fixpoint trim_start (s : string) : string :=
  match s with
  | String c r => if is_space c then trim_start r else s
  | EmptyString => EmptyString
  end.

Fixpoint trim_end (s : string) : string :=
  match s with
  | String c r =>
      match trim_end r with
      | EmptyString => if is_space c then EmptyString else String c EmptyString
      | r' => String c r'
      end
  | EmptyString => EmptyString
  end.

(** [s.trim()] *)
Definition trim (s : string) : string := trim_end (trim_start s).

Fixpoint all_space (s : string) : bool :=
  match s with
  | String c r => is_space c && all_space r
  | EmptyString => true
  end.

(** *** [StringToNumber], for the strings that denote an integer *)

Definition digit_val (base : Z) (c : ascii) : option Z :=
  let n := code c in
  let v := if ((48 <=? n) && (n <=? 57))%Z then Some (n - 48)%Z
           else if ((97 <=? n) && (n <=? 102))%Z then Some (n - 87)%Z
           else if ((65 <=? n) && (n <=? 70))%Z then Some (n - 55)%Z
           else None in
  match v with
  | Some d => if (d <? base)%Z then Some d else None
  | None => None
  end.

(** The value of a string made of digits of [base] only. *)
Fixpoint digits (base acc : Z) (s : string) : option Z :=
  match s with
  | EmptyString => Some acc
  | String c r =>
      match digit_val base c with
      | Some d => digits base (acc * base + d)%Z r
      | None => None
      end
  end.

(** At least one digit, and nothing else. *)
Definition numeral (base : Z) (s : string) : option Z :=
  match s with
  | EmptyString => None
  | _ => digits base 0 s
  end.

(** The longest prefix of decimal digits, and what follows it. *)
Fixpoint span_digits (s : string) : string * string :=
  match s with
  | String c r =>
      if is_digit c
      then let (d, rest) := span_digits r in (String c d, rest)
      else (EmptyString, s)
  | EmptyString => (EmptyString, EmptyString)
  end.

(** An optional sign: its factor and the rest. *)
Definition signed (s : string) : Z * string :=
  match s with
  | String "+" r => (1%Z, r)
  | String "-" r => ((-1)%Z, r)
  | _ => (1%Z, s)
  end.

(** [ExponentPart], possibly absent: the exponent it denotes. *)
Definition exponent (s : string) : option Z :=
  match s with
  | EmptyString => Some 0%Z
  | String c r =>
      if (code c =? 101)%Z || (code c =? 69)%Z
      then let (sg, ds) := signed r in
           match numeral 10 ds with
           | Some e => Some (sg * e)%Z
           | None => None
           end
      else None
  end.

(** [m * 10 ^ k] when that is an integer. *)
Definition scale (m k : Z) : option Z :=
  if (0 <=? k)%Z then Some (m * 10 ^ k)%Z
  else let p := (10 ^ (- k))%Z in
       if (m mod p =? 0)%Z then Some (m / p)%Z else None.

(** [StrUnsignedDecimalLiteral]: digits, an optional fraction, an
    optional exponent.  [Infinity] is not an integer and so falls in the
    [None] case with the strings that are not numeric at all. *)
Definition unsigned_decimal (s : string) : option Z :=
  let (ip, r1) := span_digits s in
  let '(fp, r2) :=
    match r1 with
    | String "." r => span_digits r
    | _ => (EmptyString, r1)
    end in
  match ip ++ fp with
  | EmptyString => None
  | ds =>
      match digits 10 0 ds, exponent r2 with
      | Some m, Some e => scale m (e - Z.of_nat (String.length fp))
      | _, _ => None
      end
  end.

(** [NonDecimalIntegerLiteral]: [0x], [0o], [0b] and their capitals. *)
Definition non_decimal (s : string) : option (option Z) :=
  match s with
  | String "0" (String p r) =>
      if ((code p =? 120) || (code p =? 88))%Z then Some (numeral 16 r)
      else if ((code p =? 111) || (code p =? 79))%Z then Some (numeral 8 r)
      else if ((code p =? 98) || (code p =? 66))%Z then Some (numeral 2 r)
      else None
  | _ => None
  end.

(** [Some n] when the string converts to the integer [n]; [None] when it
    converts to [NaN], to an infinity or to a number with a fraction
    (none of which equals an integer). *)
Definition to_number (s : string) : option Z :=
  match trim s with
  | EmptyString => Some 0%Z
  | t =>
      match non_decimal t with
      | Some r => r
      | None =>
          let (sg, u) := signed t in
          match unsigned_decimal u with
          | Some n => Some (sg * n)%Z
          | None => None
          end
      end
  end.

(** [a == b], the loose equality of the language. *)
Definition loose_eq (a b : value) : bool :=
  match a, b with
  | (Undefined | Null), (Undefined | Null) => true
  | Num m, Num n => (m =? n)%Z
  | Str s, Str t => (s =? t)
  | Num m, Str s | Str s, Num m =>
      match to_number s with
      | Some n => (m =? n)%Z
      | None => false
      end
  | _, _ => false
  end.

End JS.

Import JS.

(** ** The page *)

(** The inline [style.display] of an element: not set, ['flex'] or
    ['none']. *)
Inductive display : Type := Unset | Flex | DisplayNone.

(** A child of [#chat-box]: the suggestions container (an element of the
    template that the script moves in and out), or a message [div] created
    by [addMessageToUI], with its class list and the text whose
    [marked.parse] rendering is its markup. *)
Inductive node : Type :=
| Suggestions
| Message (classes : list string) (markdown : string).

(** An [a.conversation-link] of the sidebar. *)
Record link : Type := mkLink {
  href : string;
  textContent : string;
  data_id : string;
  active : bool }.

Inductive meth : Type := GET | POST.

(** A [fetch] call: method, URL, and the [message] field of the JSON body
    when there is one. *)
Record request : Type := mkRequest {
  req_method : meth;
  req_url : string;
  req_message : option string }.

(** What a [catch] clause receives.  [TokenSyntaxError] is the DOM
    exception of [classList.add] on an empty token. *)
Inductive exn : Type :=
| JsError (message : string)
| TokenSyntaxError.

Definition message_of (e : exn) : string :=
  match e with
  | JsError m => m
  | TokenSyntaxError => "The token provided must not be empty."
  end.

(** The elements that the script guards with [if (element)] are optional
    ([None]: not on this page); [chatBox], [chatTitle], [shareLinkInput],
    [shareModal] and [messageInput] are used without a guard by the
    operations below and are taken to exist. *)
Record page : Type := mkPage {
  currentConversationId : value;
  chatBox : list node;
  suggestionsContainer : option display;
  typingIndicator : option display;
  chatTitle : string;
  shareChatBtn : option display;
  exportMenuBtn : option display;
  conversationHistory : option (list link);
  shareLinkInput : string;
  shareModal : display;
  messageInput : string;
  app_layout : bool;
  pathname : string;
  back_entries : list string;
  alerts : list string;
  console : list (string * exn);
  requests : list request }.

Definition set_currentConversationId (v : value) (p : page) : page :=
  let 'mkPage cur box sugg typing ttl shareb exportb side slink modal input
      layout path back als con reqs := p in
  mkPage v box sugg typing ttl shareb exportb side slink modal input layout
    path back als con reqs.

Definition set_chatBox (v : list node) (p : page) : page :=
  let 'mkPage cur box sugg typing ttl shareb exportb side slink modal input
      layout path back als con reqs := p in
  mkPage cur v sugg typing ttl shareb exportb side slink modal input layout
    path back als con reqs.

Definition set_suggestionsContainer (v : option display) (p : page) : page :=
  let 'mkPage cur box sugg typing ttl shareb exportb side slink modal input
      layout path back als con reqs := p in
  mkPage cur box v typing ttl shareb exportb side slink modal input layout
    path back als con reqs.

Definition set_typingIndicator (v : option display) (p : page) : page :=
  let 'mkPage cur box sugg typing ttl shareb exportb side slink modal input
      layout path back als con reqs := p in
  mkPage cur box sugg v ttl shareb exportb side slink modal input layout
    path back als con reqs.

Definition set_chatTitle (v : string) (p : page) : page :=
  let 'mkPage cur box sugg typing ttl shareb exportb side slink modal input
      layout path back als con reqs := p in
  mkPage cur box sugg typing v shareb exportb side slink modal input layout
    path back als con reqs.

Definition set_shareChatBtn (v : option display) (p : page) : page :=
  let 'mkPage cur box sugg typing ttl shareb exportb side slink modal input
      layout path back als con reqs := p in
  mkPage cur box sugg typing ttl v exportb side slink modal input layout
    path back als con reqs.

Definition set_exportMenuBtn (v : option display) (p : page) : page :=
  let 'mkPage cur box sugg typing ttl shareb exportb side slink modal input
      layout path back als con reqs := p in
  mkPage cur box sugg typing ttl shareb v side slink modal input layout path
    back als con reqs.

Definition set_conversationHistory (v : option (list link)) (p : page) : page :=
  let 'mkPage cur box sugg typing ttl shareb exportb side slink modal input
      layout path back als con reqs := p in
  mkPage cur box sugg typing ttl shareb exportb v slink modal input layout
    path back als con reqs.

Definition set_shareLinkInput (v : string) (p : page) : page :=
  let 'mkPage cur box sugg typing ttl shareb exportb side slink modal input
      layout path back als con reqs := p in
  mkPage cur box sugg typing ttl shareb exportb side v modal input layout
    path back als con reqs.

Definition set_shareModal (v : display) (p : page) : page :=
  let 'mkPage cur box sugg typing ttl shareb exportb side slink modal input
      layout path back als con reqs := p in
  mkPage cur box sugg typing ttl shareb exportb side slink v input layout
    path back als con reqs.

Definition set_messageInput (v : string) (p : page) : page :=
  let 'mkPage cur box sugg typing ttl shareb exportb side slink modal input
      layout path back als con reqs := p in
  mkPage cur box sugg typing ttl shareb exportb side slink modal v layout
    path back als con reqs.

(** [window.history.pushState({}, '', url)]: the current entry joins the
    ones reachable by the back button and [url] becomes the location. *)
Definition push_location (url : string) (p : page) : page :=
  let 'mkPage cur box sugg typing ttl shareb exportb side slink modal input
      layout path back als con reqs := p in
  mkPage cur box sugg typing ttl shareb exportb side slink modal input
    layout url (path :: back) als con reqs.

Definition add_alert (text : string) (p : page) : page :=
  let 'mkPage cur box sugg typing ttl shareb exportb side slink modal input
      layout path back als con reqs := p in
  mkPage cur box sugg typing ttl shareb exportb side slink modal input
    layout path back (als ++ [text]) con reqs.

Definition add_console (label : string) (e : exn) (p : page) : page :=
  let 'mkPage cur box sugg typing ttl shareb exportb side slink modal input
      layout path back als con reqs := p in
  mkPage cur box sugg typing ttl shareb exportb side slink modal input
    layout path back als (con ++ [(label, e)]) reqs.

Definition add_request (r : request) (p : page) : page :=
  let 'mkPage cur box sugg typing ttl shareb exportb side slink modal input
      layout path back als con reqs := p in
  mkPage cur box sugg typing ttl shareb exportb side slink modal input
    layout path back als con (reqs ++ [r]).

(** [element.style.display = d], behind the [if (element)] guard. *)
Definition styled (d : display) (element : option display) : option display :=
  match element with
  | Some _ => Some d
  | None => None
  end.

(** ** The back end *)

(** How a [fetch] followed by [response.json()] can end: the fetch promise
    rejects, the body is not JSON, or a value of the endpoint's shape is
    parsed. *)
Inductive reply (A : Type) : Type :=
| Rejected (why : string)
| Malformed (why : string)
| Parsed (data : A).
Arguments Rejected {A} why.
Arguments Malformed {A} why.
Arguments Parsed {A} data.

(** The shapes the script reads, endpoint by endpoint.  An absent field is
    [Undefined]. *)
Record created : Type := mkCreated {
  created_error : value;
  conversation_id : value }.

Record sent : Type := mkSent {
  sent_error : value;
  response : string }.

Record msg : Type := mkMsg {
  content : string;
  sender : string }.

Record conversation : Type := mkConversation {
  conversation_error : value;
  title : string;
  messages : list msg }.

Record entry : Type := mkEntry {
  entry_id : value;
  entry_title : string }.

Record shared : Type := mkShared {
  shared_error : value;
  share_url : string }.

(** The back end answers a request knowing every request issued so far,
    the one being answered last. *)
Record server : Type := mkServer {
  new_conversation : list request -> reply created;
  send : list request -> reply sent;
  get_conversation : list request -> reply conversation;
  get_conversations : list request -> reply (list entry);
  share : list request -> reply shared }.

(** ** The monad of the operations: page state and exceptions *)

Inductive outcome (A : Type) : Type :=
| Return (a : A)
| Throw (e : exn).
Arguments Return {A} a.
Arguments Throw {A} e.

Definition M (A : Type) : Type := page -> outcome A * page.

Definition ret {A} (a : A) : M A := fun p => (Return a, p).

Definition throw {A} (e : exn) : M A := fun p => (Throw e, p).

Definition bind {A B} (m : M A) (k : A -> M B) : M B :=
  fun p =>
    match m p with
    | (Return a, p') => k a p'
    | (Throw e, p') => (Throw e, p')
    end.

Declare Scope js_scope.
Delimit Scope js_scope with js.
Notation "x <- m ;; k" := (bind m (fun x => k))
  (at level 100, m at next level, right associativity) : js_scope.
Notation "m ;; k" := (bind m (fun _ => k))
  (at level 100, right associativity) : js_scope.
Local Open Scope js_scope.

Definition read {A} (f : page -> A) : M A := fun p => (Return (f p), p).

Definition update (f : page -> page) : M unit := fun p => (Return tt, f p).

(** [try { body } catch (error) { handler }] *)
Definition try_catch {A} (body : M A) (handler : exn -> M A) : M A :=
  fun p =>
    match body p with
    | (Return a, p') => (Return a, p')
    | (Throw e, p') => handler e p'
    end.

(** [try { body } finally { final }]: [final] runs on both ways out, and
    an exception of its own replaces the outcome of [body]. *)
Definition try_finally {A} (body : M A) (final : M unit) : M A :=
  fun p =>
    let (o, p') := body p in
    match final p' with
    | (Return _, p'') => (o, p'')
    | (Throw e, p'') => (Throw e, p'')
    end.

(** [list.forEach(f)] *)
Fixpoint for_each {A} (f : A -> M unit) (l : list A) : M unit :=
  match l with
  | [] => ret tt
  | x :: r => f x ;; for_each f r
  end.

(** The final page of a run. *)
Definition exec {A} (m : M A) (p : page) : page := snd (m p).

(** Calling an [async] function without awaiting it: the caller goes on
    whatever the outcome, and a rejection of the promise is not an
    exception of the caller. *)
Definition spawn (m : M unit) : M unit := fun p => (Return tt, exec m p).

(** [fetch] followed by [response.json()]: both awaited, either may
    throw. *)
Definition settle {A} (r : reply A) : M A :=
  match r with
  | Rejected why => throw (JsError why)
  | Malformed why => throw (JsError why)
  | Parsed data => ret data
  end.

(** ** The pattern [/\/conversation\/(\d+)/] *)

Fixpoint strip_prefix (pre s : string) : option string :=
  match pre, s with
  | EmptyString, _ => Some s
  | String a pre', String b s' =>
      if Ascii.eqb a b then strip_prefix pre' s' else None
  | String _ _, EmptyString => None
  end.

(** A match starting at the first character: the captured digits. *)
Definition match_at (path : string) : option string :=
  match strip_prefix "/conversation/" path with
  | Some r =>
      match fst (span_digits r) with
      | EmptyString => None
      | d => Some d
      end
  | None => None
  end.

(** [path.match(...)]: the leftmost match; its group 1. *)
Fixpoint match_conversation (path : string) : option string :=
  match match_at path with
  | Some d => Some d
  | None =>
      match path with
      | String _ r => match_conversation r
      | EmptyString => None
      end
  end.

(** ** The operations of the script *)

Section Script.

Variable srv : server.

Definition fetch_json {A} (endpoint : server -> list request -> reply A)
    (r : request) : M A :=
  update (add_request r) ;;
  log <- read requests ;;
  settle (endpoint srv log).

(** Scrolling is not modelled. *)
Definition showTypingIndicator (show : bool) : M unit :=
  update (fun p =>
    set_typingIndicator
      (styled (if show then Flex else DisplayNone) (typingIndicator p)) p).

Definition addMessageToUI (text who : string) : M unit :=
  let class := if who =? "user" then "user-message"
               else if who =? "model" then "bot-message" else "" in
  if class =? "" then throw TokenSyntaxError
  else update (fun p =>
         set_chatBox (chatBox p ++ [Message ["message"; class] text]) p).

Definition resetChatArea : M unit :=
  update (set_chatBox []) ;;
  update (fun p =>
    match suggestionsContainer p with
    | Some _ =>
        set_suggestionsContainer (Some Flex)
          (set_chatBox (chatBox p ++ [Suggestions]) p)
    | None => p
    end) ;;
  update (set_chatTitle "New Chat") ;;
  update (fun p => set_shareChatBtn (styled DisplayNone (shareChatBtn p)) p) ;;
  update (fun p => set_exportMenuBtn (styled DisplayNone (exportMenuBtn p)) p).

Definition render_entry (conv : entry) : M unit :=
  cur <- read currentConversationId ;;
  let hit := loose_eq (entry_id conv) cur in
  let a := mkLink ("/conversation/" ++ to_string (entry_id conv))
             (entry_title conv) (to_string (entry_id conv)) hit in
  (if hit then update (set_chatTitle (entry_title conv)) else ret tt) ;;
  update (fun p =>
    set_conversationHistory
      (option_map (fun l => (l ++ [a])%list) (conversationHistory p)) p).

Definition loadConversationHistory : M unit :=
  sidebar <- read conversationHistory ;;
  match sidebar with
  | None => ret tt
  | Some _ =>
      try_catch
        (conversations <-
           fetch_json get_conversations (mkRequest GET "/conversations" None) ;;
         update (set_conversationHistory (Some [])) ;;
         for_each render_entry conversations)
        (fun error => update (add_console "Failed to load history:" error))
  end.

Definition sendMessage (text : string) : M unit :=
  if text =? "" then ret tt
  else
    update (fun p =>
      set_suggestionsContainer
        (styled DisplayNone (suggestionsContainer p)) p) ;;
    addMessageToUI text "user" ;;
    showTypingIndicator true ;;
    try_finally
      (try_catch
         (cur <- read currentConversationId ;;
          (if negb (truthy cur) then
             data <-
               fetch_json new_conversation
                 (mkRequest POST "/new_conversation" None) ;;
             (if truthy (created_error data)
              then throw (JsError (to_string (created_error data)))
              else ret tt) ;;
             update (set_currentConversationId (conversation_id data)) ;;
             cur <- read currentConversationId ;;
             update (push_location ("/conversation/" ++ to_string cur)) ;;
             loadConversationHistory
           else ret tt) ;;
          cur <- read currentConversationId ;;
          data <-
            fetch_json send
              (mkRequest POST ("/conversations/" ++ to_string cur ++ "/send")
                 (Some text)) ;;
          (if truthy (sent_error data)
           then throw (JsError (to_string (sent_error data)))
           else ret tt) ;;
          addMessageToUI (response data) "model" ;;
          loadConversationHistory)
         (fun error => addMessageToUI ("Error: " ++ message_of error) "model"))
      (showTypingIndicator false).

Definition set_active (b : bool) (a : link) : link :=
  mkLink (href a) (textContent a) (data_id a) b.

Definition loadConversation (convId : value) : M unit :=
  if negb (truthy convId) then
    resetChatArea ;;
    update (set_currentConversationId Null) ;;
    update (push_location "/")
  else
    try_catch
      (data <-
         fetch_json get_conversation
           (mkRequest GET ("/conversations/" ++ to_string convId) None) ;;
       (if truthy (conversation_error data)
        then throw (JsError (to_string (conversation_error data)))
        else ret tt) ;;
       update (set_chatBox []) ;;
       update (fun p =>
         set_suggestionsContainer
           (styled DisplayNone (suggestionsContainer p)) p) ;;
       for_each (fun m => addMessageToUI (content m) (sender m))
         (messages data) ;;
       update (set_chatTitle (title data)) ;;
       update (set_currentConversationId convId) ;;
       update (fun p => set_shareChatBtn (styled Flex (shareChatBtn p)) p) ;;
       update (fun p => set_exportMenuBtn (styled Flex (exportMenuBtn p)) p) ;;
       update (push_location ("/conversation/" ++ to_string convId)) ;;
       update (fun p =>
         set_conversationHistory
           (option_map
              (map (fun a => set_active (loose_eq (Str (data_id a)) convId) a))
              (conversationHistory p)) p))
      (fun error =>
         update (add_console "Failed to load conversation:" error) ;;
         resetChatArea).

Definition handleShare : M unit :=
  cur <- read currentConversationId ;;
  if negb (truthy cur) then ret tt
  else
    try_catch
      (data <-
         fetch_json share
           (mkRequest POST ("/conversations/" ++ to_string cur ++ "/share")
              None) ;;
       (if truthy (shared_error data)
        then throw (JsError (to_string (shared_error data)))
        else ret tt) ;;
       update (set_shareLinkInput (share_url data)) ;;
       update (set_shareModal Flex))
      (fun error =>
         update (add_alert ("Could not share chat: " ++ message_of error))).

(** The [submit] listener of the message form.  [sendMessage] touches
    neither the input box nor its height, so clearing the box after the
    whole send rather than at its first [await] changes nothing that the
    model records. *)
Definition on_submit : M unit :=
  typed <- read messageInput ;;
  spawn (sendMessage (trim typed)) ;;
  update (set_messageInput "").

(** The id that [init] hands to [loadConversation]. *)
Definition init_convId (path : string) : value :=
  match match_conversation path with
  | Some d => Str d
  | None => Null
  end.

(** [init], theme apart.  The two calls are not awaited; the model runs
    them one after the other, which is the order in which their
    responses are handled when they arrive in the order of the
    requests. *)
Definition init : M unit :=
  layout <- read app_layout ;;
  if layout then
    path <- read pathname ;;
    spawn (loadConversation (init_convId path)) ;;
    spawn loadConversationHistory
  else ret tt.

End Script.

(** ** What a user observes of the conversation *)

Definition is_message (n : node) : bool :=
  match n with
  | Message _ _ => true
  | Suggestions => false
  end.

(** The message elements of the chat box, in document order. *)
Definition rendered (p : page) : list node := filter is_message (chatBox p).

(** Whether the suggestions container currently sits in the chat box. *)
Definition suggestions_attached (p : page) : bool :=
  existsb (fun n => negb (is_message n)) (chatBox p).

Record view : Type := mkView {
  view_messages : list node;
  view_suggestions : option display;
  view_suggestions_attached : bool;
  view_title : string;
  view_share : option display;
  view_export : option display;
  view_id : value;
  view_url : string }.

Definition observe (p : page) : view :=
  mkView (rendered p) (suggestionsContainer p) (suggestions_attached p)
    (chatTitle p) (shareChatBtn p) (exportMenuBtn p)
    (currentConversationId p) (pathname p).

(** The bubbles [addMessageToUI] makes. *)
Definition user_bubble (text : string) : node :=
  Message ["message"; "user-message"] text.

Definition bot_bubble (text : string) : node :=
  Message ["message"; "bot-message"] text.

Definition bubble_of (m : msg) : node :=
  if sender m =? "user" then user_bubble (content m) else bot_bubble (content m).

Definition known_sender (m : msg) : bool :=
  (sender m =? "user") || (sender m =? "model").

(** The requests of the script. *)
Definition create_request : request := mkRequest POST "/new_conversation" None.

Definition send_request (id : value) (text : string) : request :=
  mkRequest POST ("/conversations/" ++ to_string id ++ "/send") (Some text).

Definition list_request : request := mkRequest GET "/conversations" None.

Definition load_request (id : value) : request :=
  mkRequest GET ("/conversations/" ++ to_string id) None.

Definition share_request (id : value) : request :=
  mkRequest POST ("/conversations/" ++ to_string id ++ "/share") None.

Definition is_create (r : request) : bool :=
  match req_method r with
  | POST => req_url r =? "/new_conversation"
  | GET => false
  end.

(** Only the send call carries a message. *)
Definition is_send (r : request) : bool :=
  match req_message r with
  | Some _ => true
  | None => false
  end.

Definition creates (l : list request) : nat := List.length (filter is_create l).

(** The exception a reply leads to, if any: a rejected fetch, a body that
    does not parse, or a truthy [error] field. *)
Definition failure {A} (error : A -> value) (r : reply A) : option exn :=
  match r with
  | Rejected why => Some (JsError why)
  | Malformed why => Some (JsError why)
  | Parsed data =>
      if truthy (error data) then Some (JsError (to_string (error data)))
      else None
  end.

(** The sidebar link made for an entry while [cur] is the session id. *)
Definition link_of (cur : value) (conv : entry) : link :=
  mkLink ("/conversation/" ++ to_string (entry_id conv)) (entry_title conv)
    (to_string (entry_id conv)) (loose_eq (entry_id conv) cur).

Definition links (p : page) : list link :=
  match conversationHistory p with
  | Some l => l
  | None => []
  end.

Definition active_links (p : page) : nat := List.length (filter active (links p)).

(** The page has the suggestions container and the share and export
    buttons, as the chat page does. *)
Definition chat_layout (p : page) : Prop :=
  suggestionsContainer p <> None /\ shareChatBtn p <> None /\
  exportMenuBtn p <> None.

(** ** Fixtures for the examples *)

(** A chat page at [path] with every element in place and nothing loaded
    yet. *)
Definition page_at (path : string) : page :=
  mkPage Null [Suggestions] (Some Unset) (Some Unset) "New Chat" (Some Unset)
    (Some Unset) (Some []) "" Unset "" true path [] [] [] [].

(** A back end whose answers do not depend on the requests. *)
Definition fixed_server (c : reply created) (s : reply sent)
    (v : reply conversation) (l : reply (list entry)) (h : reply shared)
    : server :=
  mkServer (fun _ => c) (fun _ => s) (fun _ => v) (fun _ => l) (fun _ => h).

Definition two_entries : list entry :=
  [mkEntry (Num 5) "Trip"; mkEntry (Num 7) "Recipes"].

Definition hello_thread : conversation :=
  mkConversation Undefined "Trip"
    [mkMsg "Hello" "user"; mkMsg "Hi there" "model"].

(** Everything works. *)
Definition healthy : server :=
  fixed_server (Parsed (mkCreated Undefined (Num 5)))
    (Parsed (mkSent Undefined "Hi there"))
    (Parsed hello_thread) (Parsed two_entries)
    (Parsed (mkShared Undefined "http://host/shared/abc")).

(** Conversations cannot be loaded. *)
Definition not_found : server :=
  fixed_server (Parsed (mkCreated Undefined (Num 5)))
    (Parsed (mkSent Undefined "Hi there"))
    (Parsed (mkConversation (Str "not found") "" []))
    (Parsed two_entries)
    (Parsed (mkShared (Str "not found") "")).

(** Conversations are created, messages are not delivered. *)
Definition send_down (id : value) : server :=
  fixed_server (Parsed (mkCreated Undefined id)) (Rejected "Failed to fetch")
    (Parsed hello_thread) (Parsed two_entries) (Rejected "Failed to fetch").

(** The page once the sidebar and conversation 5 have been loaded. *)
Definition on_conversation_5 : page :=
  exec (loadConversation healthy (Str "5"))
    (exec (loadConversationHistory healthy) (page_at "/")).

(** Text made of decimal digits only. *)
Fixpoint all_digits (s : string) : bool :=
  match s with
  | String c r => is_digit c && all_digits r
  | EmptyString => true
  end.

Definition starts_with_digit (s : string) : bool :=
  match s with
  | String c _ => is_digit c
  | EmptyString => false
  end.

(** [path] has [/conversation/] followed by a digit after the prefix
    [pre]. *)
Definition occurrence (pre path : string) : Prop :=
  exists c post,
    path = pre ++ "/conversation/" ++ String c post /\ is_digit c = true.

(** The page after a first message, on a back end that hands out the id
    0 and then fails to deliver. *)
Definition after_zero : page :=
  exec (sendMessage (send_down (Num 0)) "Hello") (page_at "/").

(** The title shown after the entries [convs] have been rendered while
    [cur] is the session id: that of the last entry whose id matches. *)
Definition title_after (cur : value) (convs : list entry) (t : string) : string :=
  fold_left
    (fun t conv => if loose_eq (entry_id conv) cur then entry_title conv else t)
    convs t.

(** The requests of a sidebar refresh. *)
Definition refresh (sidebar : option (list link)) : list request :=
  match sidebar with
  | Some _ => [list_request]
  | None => []
  end.

(** The two halves of the [try] block of [sendMessage], named for the
    proofs: establishing a conversation, then delivering the text. *)
Definition create_phase (srv : server) : M unit :=
  data <- fetch_json srv new_conversation (mkRequest POST "/new_conversation" None) ;;
  (if truthy (created_error data)
   then throw (JsError (to_string (created_error data)))
   else ret tt) ;;
  update (set_currentConversationId (conversation_id data)) ;;
  cur <- read currentConversationId ;;
  update (push_location ("/conversation/" ++ to_string cur)) ;;
  loadConversationHistory srv.

Definition send_phase (srv : server) (text : string) : M unit :=
  cur <- read currentConversationId ;;
  data <-
    fetch_json srv send
      (mkRequest POST ("/conversations/" ++ to_string cur ++ "/send")
         (Some text)) ;;
  (if truthy (sent_error data)
   then throw (JsError (to_string (sent_error data)))
   else ret tt) ;;
  addMessageToUI (response data) "model" ;;
  loadConversationHistory srv.

(** The inline error of the [catch] clause. *)
Definition error_bubble (e : exn) : node :=
  bot_bubble ("Error: " ++ message_of e).

(** The ways through [sendMessage] for a text that is not empty, from
    page [p] to page [p']: which replies lead there, the requests issued,
    the bubbles added and the session id at the end. *)
Inductive send_path (srv : server) (text : string) (p p' : page) : Prop :=
| create_failed e
    (Hcur : truthy (currentConversationId p) = false)
    (Hcreate : failure created_error
                 (new_conversation srv (requests p ++ [create_request])) = Some e)
    (Hreqs : requests p' = (requests p ++ [create_request])%list)
    (Hbox : chatBox p' = (chatBox p ++ [user_bubble text; error_bubble e])%list)
    (Hid : currentConversationId p' = currentConversationId p)
| created_send_failed d e
    (Hcur : truthy (currentConversationId p) = false)
    (Hcreate : new_conversation srv (requests p ++ [create_request]) = Parsed d)
    (Hok : truthy (created_error d) = false)
    (Hsend : failure sent_error
               (send srv (requests p ++ create_request ::
                            refresh (conversationHistory p) ++
                            [send_request (conversation_id d) text])) = Some e)
    (Hreqs : requests p' =
             (requests p ++ create_request ::
                refresh (conversationHistory p) ++
                [send_request (conversation_id d) text])%list)
    (Hbox : chatBox p' = (chatBox p ++ [user_bubble text; error_bubble e])%list)
    (Hid : currentConversationId p' = conversation_id d)
| created_sent d r
    (Hcur : truthy (currentConversationId p) = false)
    (Hcreate : new_conversation srv (requests p ++ [create_request]) = Parsed d)
    (Hok : truthy (created_error d) = false)
    (Hsend : send srv (requests p ++ create_request ::
                         refresh (conversationHistory p) ++
                         [send_request (conversation_id d) text]) = Parsed r)
    (Hok' : truthy (sent_error r) = false)
    (Hreqs : requests p' =
             (requests p ++ create_request ::
                refresh (conversationHistory p) ++
                send_request (conversation_id d) text ::
                refresh (conversationHistory p))%list)
    (Hbox : chatBox p' =
            (chatBox p ++ [user_bubble text; bot_bubble (response r)])%list)
    (Hid : currentConversationId p' = conversation_id d)
| send_failed e
    (Hcur : truthy (currentConversationId p) = true)
    (Hsend : failure sent_error
               (send srv (requests p ++
                            [send_request (currentConversationId p) text])) = Some e)
    (Hreqs : requests p' =
             (requests p ++ [send_request (currentConversationId p) text])%list)
    (Hbox : chatBox p' = (chatBox p ++ [user_bubble text; error_bubble e])%list)
    (Hid : currentConversationId p' = currentConversationId p)
| just_sent r
    (Hcur : truthy (currentConversationId p) = true)
    (Hsend : send srv (requests p ++
                         [send_request (currentConversationId p) text]) = Parsed r)
    (Hok' : truthy (sent_error r) = false)
    (Hreqs : requests p' =
             (requests p ++
                send_request (currentConversationId p) text ::
                refresh (conversationHistory p))%list)
    (Hbox : chatBox p' =
            (chatBox p ++ [user_bubble text; bot_bubble (response r)])%list)
    (Hid : currentConversationId p' = currentConversationId p).

(** ** The listeners of the chat area *)

(** A click inside [#conversation-history]: [hit] is the position of the
    sidebar link that [closest('.conversation-link')] finds from the
    target, if there is one. *)
Definition on_history_click (srv : server) (hit : option nat) : M unit :=
  match hit with
  | Some i =>
      sidebar <- read links ;;
      match nth_error sidebar i with
      | Some a => spawn (loadConversation srv (Str (data_id a)))
      | None => ret tt
      end
  | None => ret tt
  end.

(** A click inside the suggestions container, on a target with the given
    class list and text. *)
Definition on_suggestion_click (srv : server) (classes : list string)
    (text : string) : M unit :=
  if existsb (String.eqb "suggestion-chip") classes
  then spawn (sendMessage srv text)
  else ret tt.

(** The close button of the share dialog. *)
Definition on_close_modal : M unit := update (set_shareModal DisplayNone).

(** ** The window around the chat area: theme, export menu, navigation *)

(** [root_class] is [document.documentElement.className], [stored_theme]
    the [theme] key of the local storage ([None]: no such key),
    [themeToggle] the checkbox ([None]: not on this page) with its
    [checked] state, [exportOptions] the export menu ([None]: not on this
    page) with whether it has the class [visible], [body_chat_page] whether
    the body has the class [chat-page], and [href_assigned] the last URL
    assigned to [window.location.href]. *)
Record window : Type := mkWindow {
  doc : page;
  root_class : string;
  stored_theme : option string;
  themeToggle : option bool;
  exportOptions : option bool;
  body_chat_page : bool;
  href_assigned : option string }.

Definition set_doc (d : page) (w : window) : window :=
  let 'mkWindow _ cls st tg eo bc hr := w in mkWindow d cls st tg eo bc hr.

Definition set_exportOptions (v : option bool) (w : window) : window :=
  let 'mkWindow d cls st tg eo bc hr := w in mkWindow d cls st tg v bc hr.

(** A page operation run in the window. *)
Definition in_doc (m : M unit) (w : window) : window :=
  set_doc (exec m (doc w)) w.

Definition applyTheme (theme : string) (w : window) : window :=
  let 'mkWindow d cls st tg eo bc hr := w in
  mkWindow d theme (Some theme)
    (match tg with
     | Some _ => Some (theme =? "dark")
     | None => None
     end) eo bc hr.

(** The [change] listener of the theme checkbox. *)
Definition on_theme_change (w : window) : window :=
  match themeToggle w with
  | Some checked => applyTheme (if checked then "dark" else "light") w
  | None => w
  end.

(** The user flips the checkbox, which fires [change]. *)
Definition flip_theme (w : window) : window :=
  let 'mkWindow d cls st tg eo bc hr := w in
  on_theme_change (mkWindow d cls st (option_map negb tg) eo bc hr).

(** [localStorage.getItem('theme') || 'dark'] *)
Definition saved_theme (w : window) : string :=
  match stored_theme w with
  | Some t => if t =? "" then "dark" else t
  | None => "dark"
  end.

(** [init], whole: the theme, then the chat page if this is one. *)
Definition startup (srv : server) (w : window) : window :=
  let w1 := applyTheme (saved_theme w) w in
  if app_layout (doc w1) then
    let 'mkWindow d cls st tg eo bc hr := w1 in
    mkWindow (exec (init srv) d) cls st tg eo true hr
  else w1.

(** The [click] listener of the export button; without the menu element
    its body throws before it has changed anything. *)
Definition on_export_menu_click (w : window) : window :=
  match exportMenuBtn (doc w), exportOptions w with
  | Some _, Some visible => set_exportOptions (Some (negb visible)) w
  | _, _ => w
  end.

(** The target of a click in the export menu: its tag name and its
    [data-format] attribute ([Undefined] when it has none). *)
Record target : Type := mkTarget {
  tagName : string;
  data_format : value }.

Definition export_url (id format : value) : string :=
  "/conversations/" ++ to_string id ++ "/export?format=" ++ to_string format.

(** The [click] listener of the export menu. *)
Definition on_export_options_click (t : target) (w : window) : window :=
  match exportOptions w with
  | Some _ =>
      let cur := currentConversationId (doc w) in
      if (tagName t =? "A") && truthy cur then
        let 'mkWindow d cls st tg eo bc hr := w in
        mkWindow d cls st tg (Some false) bc
          (Some (export_url cur (data_format t)))
      else w
  | None => w
  end.

(** The [click] listener of the document; the two flags say whether the
    export button, respectively the export menu, contains the target. *)
Definition on_document_click (in_button in_menu : bool) (w : window)
    : window :=
  match exportMenuBtn (doc w), exportOptions w with
  | Some _, Some _ =>
      if negb in_button && negb in_menu
      then set_exportOptions (Some false) w
      else w
  | _, _ => w
  end.

(** One listener called once.  [Typed] is the user editing the message
    box; a click seen by several listeners is as many events, in the order
    of the calls.  A listener is registered only if its element is on the
    page; the form and the close button of the dialog are not part of
    [page] and are taken to be there. *)
Inductive event : Type :=
| Typed (text : string)
| Submitted
| SuggestionClicked (classes : list string) (text : string)
| HistoryClicked (hit : option nat)
| ShareClicked
| ModalClosed
| ThemeFlipped
| ExportMenuClicked
| ExportOptionClicked (t : target)
| DocumentClicked (in_button in_menu : bool).

Definition handle (srv : server) (e : event) (w : window) : window :=
  match e with
  | Typed text => in_doc (update (set_messageInput text)) w
  | Submitted => in_doc (on_submit srv) w
  | SuggestionClicked classes text =>
      match suggestionsContainer (doc w) with
      | Some _ => in_doc (on_suggestion_click srv classes text) w
      | None => w
      end
  | HistoryClicked hit => in_doc (on_history_click srv hit) w
  | ShareClicked =>
      match shareChatBtn (doc w) with
      | Some _ => in_doc (handleShare srv) w
      | None => w
      end
  | ModalClosed => in_doc on_close_modal w
  | ThemeFlipped => flip_theme w
  | ExportMenuClicked => on_export_menu_click w
  | ExportOptionClicked t => on_export_options_click t w
  | DocumentClicked b m => on_document_click b m w
  end.

(** The window after [startup] and the events [es], oldest first. *)
Definition session (srv : server) (es : list event) (w : window) : window :=
  fold_left (fun w e => handle srv e w) es (startup srv w).

(** The root class, the stored theme and the checkbox agree. *)
Definition theme_agrees (w : window) : Prop :=
  stored_theme w = Some (root_class w) /\
  forall checked,
    themeToggle w = Some checked -> checked = (root_class w =? "dark").


(** An operation that leaves [f] of the page as it was. *)
Definition preserves {A X} (f : page -> X) (m : M A) : Prop :=
  forall p, f (snd (m p)) = f p.

(** What neither [sendMessage] nor a sidebar refresh writes. *)
Definition beside_chat (p : page)
    : option display * option display * string * display * string * bool *
      list string :=
  (shareChatBtn p, exportMenuBtn p, shareLinkInput p, shareModal p,
   messageInput p, app_layout p, alerts p).

(** What a sidebar refresh does not write. *)
Definition beside_sidebar (p : page)
    : value * list node * option display * option display * string *
      list string :=
  (currentConversationId p, chatBox p, suggestionsContainer p,
   typingIndicator p, pathname p, back_entries p).

(** A conversation with a sender the script does not know, and a back end
    that serves it. *)
Definition stray_thread : conversation :=
  mkConversation Undefined "Trip"
    [mkMsg "Hello" "user"; mkMsg "Hi there" "assistant"].

Definition stray_sender : server :=
  fixed_server (Parsed (mkCreated Undefined (Num 5)))
    (Parsed (mkSent Undefined "Hi there"))
    (Parsed stray_thread) (Parsed two_entries)
    (Parsed (mkShared Undefined "http://host/shared/abc")).

(** A window for the examples. *)
Definition window_at (path : string) : window :=
  mkWindow (page_at path) "" None (Some false) (Some false) false None.

(** * Properties *)

(** One step of a run on a page given field by field: the monad and the
    setters compute, the operations called inside and the text stay
    folded. *)
Ltac run :=
  cbn -[append for_each to_string loose_eq truthy String.eqb refresh
        loadConversationHistory create_phase send_phase addMessageToUI].

(** The fields of a page read in a hypothesis. *)
Ltac fields_in H :=
  cbv zeta in H;
  cbn [currentConversationId chatBox suggestionsContainer typingIndicator
       chatTitle shareChatBtn exportMenuBtn conversationHistory pathname
       requests] in H.

(** ** Two runs *)

(** A first message on a new chat: create, refresh, send, refresh, and the
    reply under the user's bubble. *)
Example hello_on_new_chat :
  let p := exec (sendMessage healthy "Hello") (page_at "/") in
  requests p =
    [create_request; list_request; send_request (Num 5) "Hello"; list_request]
  /\ chatBox p = [Suggestions; user_bubble "Hello"; bot_bubble "Hi there"]
  /\ currentConversationId p = Num 5
  /\ pathname p = "/conversation/5"
  /\ chatTitle p = "Trip".
Proof. repeat split. Qed.

(** The page is opened at [/conversation/42] and the conversation cannot
    be loaded: the chat area is that of a new chat, the location is
    unchanged. *)
Example not_found_on_open :
  observe (exec (loadConversation not_found (Str "42"))
             (page_at "/conversation/42")) =
  mkView [] (Some Flex) true "New Chat" (Some DisplayNone) (Some DisplayNone)
    Null "/conversation/42".
Proof. reflexivity. Qed.

(** ** The sidebar *)

Lemma render_entries_run convs : forall p l,
  conversationHistory p = Some l ->
  for_each render_entry convs p =
  (Return tt,
   set_conversationHistory
     (Some (l ++ map (link_of (currentConversationId p)) convs)%list)
     (set_chatTitle (title_after (currentConversationId p) convs (chatTitle p)) p)).
Proof.
  induction convs as [|conv convs IH]; intros p l Hl.
  - destruct p; cbn in *; subst. now rewrite app_nil_r.
  - destruct p; cbn in Hl; subst.
    cbn [for_each]. unfold bind at 1. unfold render_entry at 1.
    unfold bind, read, update, ret. cbn -[for_each append].
    destruct (loose_eq (entry_id conv) _) eqn:Hit.
    + cbn -[for_each append]. erewrite IH by reflexivity.
      unfold link_of at 2. cbn -[append]. rewrite Hit, <- app_assoc. reflexivity.
    + cbn -[for_each append]. erewrite IH by reflexivity.
      unfold link_of at 2. cbn -[append]. rewrite Hit, <- app_assoc. reflexivity.
Qed.

Lemma title_after_last cur before conv after t :
  loose_eq (entry_id conv) cur = true ->
  forallb (fun c => negb (loose_eq (entry_id c) cur)) after = true ->
  title_after cur (before ++ conv :: after) t = entry_title conv.
Proof.
  intros Hit Hafter. unfold title_after. rewrite fold_left_app. cbn.
  rewrite Hit. clear Hit.
  induction after as [|c after IH]; [reflexivity|].
  cbn in Hafter. apply andb_true_iff in Hafter as [Hc Hafter].
  cbn. apply negb_true_iff in Hc. rewrite Hc. now apply IH.
Qed.

(** What a sidebar refresh does, case by case. *)
Lemma loadConversationHistory_run srv p :
  loadConversationHistory srv p =
  (Return tt,
   match conversationHistory p with
   | None => p
   | Some _ =>
       match get_conversations srv (requests p ++ [list_request]) with
       | Parsed convs =>
           set_conversationHistory
             (Some (map (link_of (currentConversationId p)) convs))
             (set_chatTitle
                (title_after (currentConversationId p) convs (chatTitle p))
                (add_request list_request p))
       | Rejected why | Malformed why =>
           add_console "Failed to load history:" (JsError why)
             (add_request list_request p)
       end
   end).
Proof.
  destruct p as [cur box sc ti t sb eb [old|] sl sm mi al path back als con reqs];
    [|reflexivity].
  unfold loadConversationHistory, bind at 1, read. run.
  unfold try_catch, fetch_json, bind, update, read, list_request. run.
  destruct (get_conversations srv _) as [why|why|convs]; run; try reflexivity.
  erewrite render_entries_run by reflexivity. reflexivity.
Qed.

(** A refresh never throws and leaves the conversation alone. *)
Lemma loadConversationHistory_frame srv p :
  exists p',
    loadConversationHistory srv p = (Return tt, p') /\
    currentConversationId p' = currentConversationId p /\
    chatBox p' = chatBox p /\
    typingIndicator p' = typingIndicator p /\
    suggestionsContainer p' = suggestionsContainer p /\
    pathname p' = pathname p /\
    requests p' = (requests p ++ refresh (conversationHistory p))%list /\
    refresh (conversationHistory p') = refresh (conversationHistory p).
Proof.
  rewrite loadConversationHistory_run. eexists; split; [reflexivity|].
  unfold refresh.
  destruct p as [cur box sc ti t sb eb [old|] sl sm mi al path back als con reqs].
  - cbn. destruct (get_conversations srv _); cbn; repeat split; reflexivity.
  - cbn. rewrite app_nil_r. repeat split; reflexivity.
Qed.

(** C6. A sidebar refresh that fetches a list replaces the rendered
    entries by exactly the links of that list, one per entry and in its
    order, whatever was rendered before; an entry whose id matches the
    session id ([==]) gets the [active] class, and its title becomes the
    chat title (the last such entry's, should several match). *)
Theorem loadConversationHistory_replaces srv p old convs :
  conversationHistory p = Some old ->
  get_conversations srv (requests p ++ [list_request]) = Parsed convs ->
  let p' := exec (loadConversationHistory srv) p in
  let cur := currentConversationId p in
  conversationHistory p' = Some (map (link_of cur) convs) /\
  List.length (links p') = List.length convs /\
  forall before conv after,
    convs = (before ++ conv :: after)%list ->
    loose_eq (entry_id conv) cur = true ->
    nth_error (links p') (List.length before) =
      Some (mkLink ("/conversation/" ++ to_string (entry_id conv))
              (entry_title conv) (to_string (entry_id conv)) true) /\
    (forallb (fun c => negb (loose_eq (entry_id c) cur)) after = true ->
     chatTitle p' = entry_title conv).
Proof.
  intros Hside Hreply p' cur. subst p'. unfold exec, links.
  rewrite loadConversationHistory_run, Hside, Hreply. cbn [snd].
  destruct p as [c box sc ti t sb eb side sl sm mi al path back als con reqs].
  cbn in cur. cbn.
  split; [reflexivity|]. split; [apply length_map|].
  intros before conv after -> Hit. split.
  - rewrite map_app, nth_error_app2; rewrite length_map; [|lia].
    rewrite Nat.sub_diag. cbn. unfold link_of. fold cur. now rewrite Hit.
  - intros Hafter. now apply title_after_last.
Qed.

Lemma loadConversationHistory_replaces_witness :
  links (exec (loadConversationHistory healthy) on_conversation_5) =
    [mkLink "/conversation/5" "Trip" "5" true;
     mkLink "/conversation/7" "Recipes" "7" false] /\
  chatTitle (exec (loadConversationHistory healthy) on_conversation_5) = "Trip".
Proof.
  destruct (loadConversationHistory_replaces healthy on_conversation_5
              (links on_conversation_5) two_entries eq_refl eq_refl)
    as (Hside & _ & Hmatch).
  split.
  - unfold links. rewrite Hside. reflexivity.
  - exact (proj2 (Hmatch [] (mkEntry (Num 5) "Trip") [mkEntry (Num 7) "Recipes"]
                    eq_refl eq_refl) eq_refl).
Defined.

(** ** Loading a conversation *)

Lemma addMessageToUI_known text who p :
  (who =? "user") || (who =? "model") = true ->
  addMessageToUI text who p =
  (Return tt,
   set_chatBox
     (chatBox p ++
      [if who =? "user" then user_bubble text else bot_bubble text]) p).
Proof.
  intros Hwho. unfold addMessageToUI.
  destruct (who =? "user"); [reflexivity|].
  cbn in Hwho. rewrite Hwho. reflexivity.
Qed.

Lemma addMessageToUI_user text p :
  addMessageToUI text "user" p =
  (Return tt, set_chatBox (chatBox p ++ [user_bubble text]) p).
Proof. reflexivity. Qed.

Lemma addMessageToUI_model text p :
  addMessageToUI text "model" p =
  (Return tt, set_chatBox (chatBox p ++ [bot_bubble text]) p).
Proof. reflexivity. Qed.

Lemma render_messages_run ms : forall p,
  forallb known_sender ms = true ->
  for_each (fun m => addMessageToUI (content m) (sender m)) ms p =
  (Return tt, set_chatBox (chatBox p ++ map bubble_of ms) p).
Proof.
  induction ms as [|m ms IH]; intros p Hms.
  - cbn. rewrite app_nil_r. destruct p; reflexivity.
  - cbn in Hms. apply andb_true_iff in Hms as [Hm Hms].
    cbn [for_each]. unfold bind at 1.
    rewrite addMessageToUI_known by exact Hm.
    rewrite IH by exact Hms. destruct p; cbn.
    rewrite <- app_assoc. reflexivity.
Qed.

(** The falsy branch: no request, a full reset. *)
Lemma loadConversation_falsy srv v p :
  truthy v = false ->
  loadConversation srv v p =
  (Return tt,
   push_location "/" (set_currentConversationId Null (exec resetChatArea p))).
Proof.
  intros Hv. unfold loadConversation. rewrite Hv. destruct p; reflexivity.
Qed.

(** The [catch] branch: a console line and [resetChatArea], nothing else. *)
Lemma loadConversation_failed srv v p e :
  truthy v = true ->
  failure conversation_error
    (get_conversation srv (requests p ++ [load_request v])) = Some e ->
  loadConversation srv v p =
  (Return tt,
   exec resetChatArea
     (add_console "Failed to load conversation:" e
        (add_request (load_request v) p))).
Proof.
  intros Hv Hfail. unfold loadConversation. rewrite Hv.
  destruct p as [cur box sc ti t sb eb side sl sm mi al path back als con reqs].
  cbn [requests] in Hfail.
  unfold try_catch, fetch_json, bind at 1 2 3, update, read. run.
  fold (load_request v).
  destruct (get_conversation srv _) as [why|why|data]; cbn in Hfail.
  - injection Hfail as <-. reflexivity.
  - injection Hfail as <-. reflexivity.
  - unfold bind at 1. run.
    destruct (truthy (conversation_error data)); [|discriminate].
    injection Hfail as <-. reflexivity.
Qed.

(** The success branch, for a response whose senders are the two the
    data model has. *)
Lemma loadConversation_loaded srv v p data :
  truthy v = true ->
  get_conversation srv (requests p ++ [load_request v]) = Parsed data ->
  truthy (conversation_error data) = false ->
  forallb known_sender (messages data) = true ->
  loadConversation srv v p =
  (Return tt,
   set_conversationHistory
     (option_map (map (fun a => set_active (loose_eq (Str (data_id a)) v) a))
        (conversationHistory p))
     (push_location ("/conversation/" ++ to_string v)
        (set_exportMenuBtn (styled Flex (exportMenuBtn p))
           (set_shareChatBtn (styled Flex (shareChatBtn p))
              (set_currentConversationId v
                 (set_chatTitle (title data)
                    (set_chatBox (map bubble_of (messages data))
                       (set_suggestionsContainer
                          (styled DisplayNone (suggestionsContainer p))
                          (add_request (load_request v) p))))))))).
Proof.
  intros Hv Hreply Herr Hms. unfold loadConversation. rewrite Hv.
  destruct p as [cur box sc ti t sb eb side sl sm mi al path back als con reqs].
  cbn [requests] in Hreply.
  unfold try_catch, fetch_json, bind at 1 2 3, update, read. run.
  fold (load_request v). rewrite Hreply. run.
  unfold bind at 1. run. rewrite Herr. run.
  unfold bind at 1 2 3. run.
  rewrite render_messages_run by exact Hms. reflexivity.
Qed.

(** C5. With a falsy id (null, or the empty string) [loadConversation]
    issues no request and leaves the new-chat view, from any page: no
    message, the title [New Chat], no session id, location [/], and, for
    the elements the page has, the suggestions attached and shown and the
    share and export buttons hidden.  A second run observes the same; all
    it adds is one more entry behind the back button. *)
Theorem loadConversation_null_idempotent srv p v :
  truthy v = false ->
  let p1 := exec (loadConversation srv v) p in
  let p2 := exec (loadConversation srv v) p1 in
  observe p2 = observe p1 /\
  p2 = push_location "/" p1 /\
  rendered p1 = [] /\
  chatTitle p1 = "New Chat" /\
  currentConversationId p1 = Null /\
  pathname p1 = "/" /\
  requests p1 = requests p /\
  suggestionsContainer p1 = styled Flex (suggestionsContainer p) /\
  shareChatBtn p1 = styled DisplayNone (shareChatBtn p) /\
  exportMenuBtn p1 = styled DisplayNone (exportMenuBtn p) /\
  (chat_layout p ->
   suggestionsContainer p1 = Some Flex /\
   suggestions_attached p1 = true /\
   shareChatBtn p1 = Some DisplayNone /\
   exportMenuBtn p1 = Some DisplayNone).
Proof.
  intros Hv p1 p2. subst p2 p1. unfold exec, chat_layout.
  rewrite !loadConversation_falsy by exact Hv.
  destruct p as [cur box sc ti t sb eb side sl sm mi al path back als con reqs].
  destruct sc, sb, eb; cbn; repeat split; try reflexivity;
    match goal with
    | H : _ /\ _ |- _ => destruct H as (Hs & Hb & He); congruence
    end.
Qed.

Lemma loadConversation_null_idempotent_witness :
  observe (exec (loadConversation healthy Null)
             (exec (loadConversation healthy Null) on_conversation_5)) =
  observe (exec (loadConversation healthy Null) on_conversation_5) /\
  observe (exec (loadConversation healthy Null) on_conversation_5) =
  mkView [] (Some Flex) true "New Chat" (Some DisplayNone) (Some DisplayNone)
    Null "/".
Proof.
  pose proof (loadConversation_null_idempotent healthy on_conversation_5 Null
                eq_refl) as H.
  cbv zeta in H. split; [apply H | reflexivity].
Defined.

(** C1. When the fetch fails, the body does not parse or the response
    carries a truthy [error], [loadConversation] shows what
    [loadConversation(null)] shows in the chat area (messages, suggestions,
    title, share and export), but it keeps the session id and the location
    it started with, where [loadConversation(null)] clears both. *)
Theorem loadConversation_failure_keeps_session srv p v e :
  truthy v = true ->
  failure conversation_error
    (get_conversation srv (requests p ++ [load_request v])) = Some e ->
  let a := exec (loadConversation srv v) p in
  let b := exec (loadConversation srv Null) p in
  rendered a = rendered b /\
  suggestionsContainer a = suggestionsContainer b /\
  suggestions_attached a = suggestions_attached b /\
  chatTitle a = chatTitle b /\
  shareChatBtn a = shareChatBtn b /\
  exportMenuBtn a = exportMenuBtn b /\
  currentConversationId a = currentConversationId p /\
  pathname a = pathname p /\
  currentConversationId b = Null /\
  pathname b = "/" /\
  console a = (console p ++ [("Failed to load conversation:", e)])%list.
Proof.
  intros Hv Hfail a b. subst a b. unfold exec.
  rewrite (loadConversation_failed srv v p e Hv Hfail).
  rewrite loadConversation_falsy by reflexivity.
  destruct p as [cur box sc ti t sb eb side sl sm mi al path back als con reqs].
  destruct sc; cbn; repeat split; reflexivity.
Qed.

(** Conversation 5 is on screen, loading conversation 7 fails: the chat
    area is reset, yet the session is still conversation 5 at
    [/conversation/5]; [loadConversation(null)] from the same page ends
    with no session at [/]. *)
Lemma loadConversation_failure_keeps_session_witness :
  observe (exec (loadConversation not_found (Str "7")) on_conversation_5) =
    mkView [] (Some Flex) true "New Chat" (Some DisplayNone)
      (Some DisplayNone) (Str "5") "/conversation/5" /\
  observe (exec (loadConversation not_found Null) on_conversation_5) =
    mkView [] (Some Flex) true "New Chat" (Some DisplayNone)
      (Some DisplayNone) Null "/".
Proof.
  pose proof (loadConversation_failure_keeps_session not_found
                on_conversation_5 (Str "7") (JsError "not found")
                eq_refl eq_refl) as H.
  cbv zeta in H. destruct H as (_ & _ & _ & _ & _ & _ & Hid & Hpath & _).
  split.
  - unfold observe. rewrite Hid, Hpath. reflexivity.
  - reflexivity.
Defined.

Lemma rendered_bubbles ms :
  filter is_message (map bubble_of ms) = map bubble_of ms.
Proof.
  induction ms as [|m ms IH]; [reflexivity|].
  cbn. unfold bubble_of at 1.
  destruct (sender m =? "user"); cbn; now rewrite IH.
Qed.

Lemma active_after_toggle v l :
  List.length
    (filter active
       (map (fun a => set_active (loose_eq (Str (data_id a)) v) a) l)) =
  List.length (filter (fun a => loose_eq (Str (data_id a)) v) l).
Proof.
  induction l as [|a l IH]; [reflexivity|].
  cbn -[loose_eq]. destruct (loose_eq (Str (data_id a)) v); cbn -[loose_eq];
    now rewrite IH.
Qed.

(** C4, as the code has it.  After a successful, error-free load whose
    messages come from the two senders of the data model, the chat box
    holds one bubble per message of the response, in the order of the
    response; the location is [/conversation/{id}]; and a sidebar link is
    active exactly when its [data-id] equals the id, so that as many links
    are active as the sidebar has links for that id. *)
Theorem loadConversation_success srv p v data :
  truthy v = true ->
  get_conversation srv (requests p ++ [load_request v]) = Parsed data ->
  truthy (conversation_error data) = false ->
  forallb known_sender (messages data) = true ->
  let p' := exec (loadConversation srv v) p in
  rendered p' = map bubble_of (messages data) /\
  List.length (rendered p') = List.length (messages data) /\
  pathname p' = "/conversation/" ++ to_string v /\
  currentConversationId p' = v /\
  links p' =
    map (fun a => set_active (loose_eq (Str (data_id a)) v) a) (links p) /\
  (forall a, In a (links p') -> active a = loose_eq (Str (data_id a)) v) /\
  active_links p' =
    List.length (filter (fun a => loose_eq (Str (data_id a)) v) (links p)).
Proof.
  intros Hv Hreply Herr Hms p'. subst p'. unfold exec.
  rewrite (loadConversation_loaded srv v p data Hv Hreply Herr Hms).
  unfold rendered, active_links, links.
  destruct p as [cur box sc ti t sb eb side sl sm mi al path back als con reqs].
  cbn -[append loose_eq]. rewrite rendered_bubbles, length_map.
  repeat split.
  - destruct side; reflexivity.
  - intros a Ha. destruct side as [l|]; cbn -[loose_eq] in Ha; [|contradiction].
    apply in_map_iff in Ha as (a0 & <- & _). reflexivity.
  - destruct side as [l|]; [|reflexivity]. apply active_after_toggle.
Qed.

Lemma loadConversation_success_witness :
  rendered on_conversation_5 = [user_bubble "Hello"; bot_bubble "Hi there"] /\
  pathname on_conversation_5 = "/conversation/5" /\
  active_links on_conversation_5 = 1.
Proof.
  pose proof (loadConversation_success healthy
                (exec (loadConversationHistory healthy) (page_at "/"))
                (Str "5") hello_thread eq_refl eq_refl eq_refl eq_refl) as H.
  cbv zeta in H. destruct H as (Hr & _ & Hp & _ & _ & _ & Ha).
  split; [exact Hr | split; [exact Hp | exact Ha]].
Defined.

(** The page is opened at [/conversation/5] and the conversation arrives
    before the sidebar has any link: the load succeeds and no entry is
    active. *)
Lemma loadConversation_success_none_active :
  get_conversation healthy
    (requests (page_at "/conversation/5") ++ [load_request (Str "5")]) =
    Parsed hello_thread /\
  truthy (conversation_error hello_thread) = false /\
  active_links
    (exec (loadConversation healthy (Str "5")) (page_at "/conversation/5")) = 0.
Proof. repeat split. Qed.

(** ** Sending a message *)

Lemma sendMessage_phases srv text :
  sendMessage srv text =
  if text =? "" then ret tt
  else
    update (fun p =>
      set_suggestionsContainer (styled DisplayNone (suggestionsContainer p)) p) ;;
    addMessageToUI text "user" ;;
    showTypingIndicator true ;;
    try_finally
      (try_catch
         (cur <- read currentConversationId ;;
          (if negb (truthy cur) then create_phase srv else ret tt) ;;
          send_phase srv text)
         (fun error => addMessageToUI ("Error: " ++ message_of error) "model"))
      (showTypingIndicator false).
Proof. reflexivity. Qed.

Lemma create_phase_run srv q :
  match failure created_error
          (new_conversation srv (requests q ++ [create_request])) with
  | Some e => create_phase srv q = (Throw e, add_request create_request q)
  | None =>
      exists d q',
        new_conversation srv (requests q ++ [create_request]) = Parsed d /\
        truthy (created_error d) = false /\
        create_phase srv q = (Return tt, q') /\
        currentConversationId q' = conversation_id d /\
        chatBox q' = chatBox q /\
        typingIndicator q' = typingIndicator q /\
        requests q' =
          (requests q ++ create_request :: refresh (conversationHistory q))%list /\
        refresh (conversationHistory q') = refresh (conversationHistory q)
  end.
Proof.
  destruct q as [cur box sc ti t sb eb side sl sm mi al path back als con reqs].
  unfold create_phase, fetch_json, bind, update, read, throw, ret. run.
  fold create_request.
  destruct (new_conversation srv _) as [why|why|d] eqn:Hreply; run;
    try reflexivity.
  destruct (truthy (created_error d)) eqn:Herr; run; [reflexivity|].
  match goal with |- context [loadConversationHistory srv ?q0] =>
    destruct (loadConversationHistory_frame srv q0)
      as (q' & Hrun & Hid & Hbox & Hti & _ & _ & Hreqs & Hside)
  end.
  exists d, q'. rewrite Hrun, Hid, Hbox, Hti, Hreqs, Hside.
  unfold refresh. cbn -[append]. rewrite <- app_assoc.
  repeat split; try reflexivity; assumption.
Qed.

Lemma send_phase_run srv text q :
  let sr := send_request (currentConversationId q) text in
  match failure sent_error (send srv (requests q ++ [sr])) with
  | Some e => send_phase srv text q = (Throw e, add_request sr q)
  | None =>
      exists r q',
        send srv (requests q ++ [sr]) = Parsed r /\
        truthy (sent_error r) = false /\
        send_phase srv text q = (Return tt, q') /\
        currentConversationId q' = currentConversationId q /\
        chatBox q' = (chatBox q ++ [bot_bubble (response r)])%list /\
        typingIndicator q' = typingIndicator q /\
        requests q' =
          (requests q ++ sr :: refresh (conversationHistory q))%list /\
        refresh (conversationHistory q') = refresh (conversationHistory q)
  end.
Proof.
  destruct q as [cur box sc ti t sb eb side sl sm mi al path back als con reqs].
  unfold send_phase, fetch_json, bind, update, read, throw, ret.
  run. fold (send_request cur text).
  destruct (send srv _) as [why|why|r] eqn:Hreply; run; try reflexivity.
  destruct (truthy (sent_error r)) eqn:Herr; run; [reflexivity|].
  rewrite addMessageToUI_model. run.
  match goal with |- context [loadConversationHistory srv ?q0] =>
    destruct (loadConversationHistory_frame srv q0)
      as (q' & Hrun & Hid & Hbox & Hti & _ & _ & Hreqs & Hside)
  end.
  exists r, q'. rewrite Hrun, Hid, Hbox, Hti, Hreqs, Hside.
  unfold refresh. cbn -[append]. rewrite <- app_assoc.
  repeat split; try reflexivity; assumption.
Qed.

(** Every run of [sendMessage] on a text that is not empty returns, along
    one of the five paths, with the typing indicator hidden. *)
Lemma sendMessage_paths srv text p :
  text <> "" ->
  exists p',
    sendMessage srv text p = (Return tt, p') /\
    send_path srv text p p' /\
    typingIndicator p' = styled DisplayNone (typingIndicator p) /\
    refresh (conversationHistory p') = refresh (conversationHistory p).
Proof.
  intros Htext. rewrite sendMessage_phases.
  apply String.eqb_neq in Htext. rewrite Htext.
  destruct p as [cur box sc ti t sb eb side sl sm mi al path back als con reqs].
  unfold bind at 1 2 3, update, showTypingIndicator. run.
  rewrite addMessageToUI_user. run.
  unfold try_finally, try_catch, bind at 1 2, read, update. run.
  destruct (truthy cur) eqn:Hcur; run.
  - (* a session id is there *)
    match goal with |- context [send_phase srv text ?q] =>
      pose proof (send_phase_run srv text q) as Hsend
    end.
    fields_in Hsend.
    destruct (failure sent_error _) as [e|] eqn:Hfail.
    + rewrite Hsend. run. rewrite addMessageToUI_model. run.
      eexists; split; [reflexivity|]. split; [|split].
      * apply send_failed with (e := e); cbn -[append]; try assumption;
          try reflexivity.
        now rewrite <- app_assoc.
      * cbn. now destruct ti.
      * reflexivity.
    + destruct Hsend as (r & q' & Hreply & Hok & Hrun & Hid & Hbox & Hti & Hreqs & Hside).
      rewrite Hrun.
      destruct q' as [cur' box' sc' ti' t' sb' eb' side' sl' sm' mi' al' path' back' als' con' reqs'].
      cbn -[append refresh] in *. subst.
      eexists; split; [reflexivity|]. split; [|split].
      * apply just_sent with (r := r); cbn -[append]; try assumption;
          try reflexivity.
        now rewrite <- app_assoc.
      * cbn. now destruct ti.
      * exact Hside.
  - (* no session id: create first *)
    match goal with |- context [create_phase srv ?q] =>
      pose proof (create_phase_run srv q) as Hcreate
    end.
    fields_in Hcreate.
    destruct (failure created_error _) as [e|] eqn:Hfail.
    + rewrite Hcreate. run. rewrite addMessageToUI_model. run.
      eexists; split; [reflexivity|]. split; [|split].
      * apply create_failed with (e := e); cbn -[append]; try assumption;
          try reflexivity.
        now rewrite <- app_assoc.
      * cbn. now destruct ti.
      * reflexivity.
    + destruct Hcreate as (d & q1 & Hreply & Hok & Hrun & Hid & Hbox & Hti & Hreqs & Hside).
      rewrite Hrun. run.
      pose proof (send_phase_run srv text q1) as Hsend.
      cbv zeta in Hsend. rewrite Hid, Hreqs in Hsend.
      destruct (failure sent_error _) as [e|] eqn:Hfail'.
      * rewrite Hsend.
        destruct q1 as [cur1 box1 sc1 ti1 t1 sb1 eb1 side1 sl1 sm1 mi1 al1 path1 back1 als1 con1 reqs1].
        fields_in Hid; fields_in Hbox; fields_in Hti; fields_in Hreqs. subst.
        run. rewrite addMessageToUI_model. run.
        eexists; split; [reflexivity|]. split; [|split].
        -- apply created_send_failed with (d := d) (e := e);
             cbn -[append refresh]; try assumption; try reflexivity.
           ++ now rewrite <- app_assoc in Hfail'.
           ++ now rewrite <- !app_assoc.
           ++ now rewrite <- app_assoc.
        -- cbn. now destruct ti.
        -- exact Hside.
      * destruct Hsend as (r & q2 & Hreply' & Hok' & Hrun' & Hid' & Hbox' & Hti' & Hreqs' & Hside').
        rewrite Hrun'.
        destruct q1 as [cur1 box1 sc1 ti1 t1 sb1 eb1 side1 sl1 sm1 mi1 al1 path1 back1 als1 con1 reqs1].
        destruct q2 as [cur2 box2 sc2 ti2 t2 sb2 eb2 side2 sl2 sm2 mi2 al2 path2 back2 als2 con2 reqs2].
        cbn -[append refresh] in *. subst.
        eexists; split; [reflexivity|]. split; [|split].
        -- apply created_sent with (d := d) (r := r);
             cbn -[append refresh]; try assumption; try reflexivity.
           ++ now rewrite <- app_assoc in Hreply'.
           ++ rewrite Hside. now rewrite <- !app_assoc.
           ++ now rewrite <- app_assoc.
        -- cbn. now destruct ti.
        -- cbn -[refresh]. now rewrite Hside'.
Qed.

Lemma failure_none {A} (error : A -> value) r d :
  r = Parsed d -> truthy (error d) = false -> failure error r = None.
Proof. intros -> H. cbn. now rewrite H. Qed.

Lemma creates_refresh side : creates (refresh side) = 0.
Proof. now destruct side. Qed.

Lemma no_send_in_refresh side r : In r (refresh side) -> is_send r = false.
Proof. destruct side; cbn; [intros [<-|[]]; reflexivity | intros []]. Qed.

Lemma creates_app l l' : creates (l ++ l') = creates l + creates l'.
Proof. unfold creates. now rewrite filter_app, length_app. Qed.

Lemma trim_blank s : all_space s = true -> trim s = "".
Proof.
  unfold trim. induction s as [|c s IH]; [reflexivity|].
  cbn. intros H. apply andb_true_iff in H as [Hc Hs].
  rewrite Hc. now apply IH.
Qed.

(** C2, as the code has it.  [sendMessage] does nothing at all for the
    empty text.  White space is removed by the submit listener, not by
    [sendMessage]: when the box holds nothing but white space, submitting
    empties the box and changes nothing else, and no request is issued. *)
Theorem sendMessage_blank srv p :
  sendMessage srv "" p = (Return tt, p) /\
  (all_space (messageInput p) = true ->
   let p' := exec (on_submit srv) p in
   p' = set_messageInput "" p /\
   requests p' = requests p /\
   observe p' = observe p /\
   typingIndicator p' = typingIndicator p).
Proof.
  split; [reflexivity|]. intros Hblank p'. subst p'.
  unfold on_submit, exec, bind, read, spawn, update.
  rewrite (trim_blank _ Hblank).
  destruct p; repeat split; reflexivity.
Qed.

Lemma sendMessage_blank_witness :
  exec (on_submit healthy) (set_messageInput "   " (page_at "/")) = page_at "/".
Proof.
  exact (proj1 (proj2 (sendMessage_blank healthy
                         (set_messageInput "   " (page_at "/"))) eq_refl)).
Defined.

(** One blank handed to [sendMessage] itself, as a suggestion chip whose
    text is a blank would: a conversation is created and the blank is
    delivered and rendered. *)
Lemma sendMessage_whitespace_is_sent :
  all_space " " = true /\
  requests (exec (sendMessage healthy " ") (page_at "/")) =
    [create_request; list_request; send_request (Num 5) " "; list_request] /\
  rendered (exec (sendMessage healthy " ") (page_at "/")) =
    [user_bubble " "; bot_bubble "Hi there"] /\
  currentConversationId (exec (sendMessage healthy " ") (page_at "/")) = Num 5.
Proof. repeat split. Qed.

(** C3, as the code has it.  The test is on truthiness.  With a falsy
    session id at entry (null, but also 0 or the empty string) the first
    request is the one create call of the run, and a send call of the run
    comes after it, once it has answered without error, and goes to the id
    it returned, which is then the session id.  With a truthy session id
    the run issues no create call and starts with the send call to that
    id. *)
Theorem sendMessage_create_before_send srv text p :
  text <> "" ->
  let p' := exec (sendMessage srv text) p in
  let cur := currentConversationId p in
  exists calls,
    requests p' = (requests p ++ calls)%list /\
    (truthy cur = false ->
     creates calls = 1 /\
     exists rest,
       calls = create_request :: rest /\
       forall r, In r rest -> is_send r = true ->
         exists d,
           new_conversation srv (requests p ++ [create_request]) = Parsed d /\
           truthy (created_error d) = false /\
           currentConversationId p' = conversation_id d /\
           r = send_request (conversation_id d) text) /\
    (truthy cur = true ->
     creates calls = 0 /\
     exists rest,
       calls = send_request cur text :: rest /\
       forall r, In r rest -> is_send r = false).
Proof.
  intros Htext p' cur. subst p' cur.
  destruct (sendMessage_paths srv text p Htext) as (p' & Hrun & Hpath & _).
  unfold exec. rewrite Hrun. cbn [snd].
  destruct Hpath as [e Hcur Hcreate Hreqs Hbox Hid
                    |d e Hcur Hcreate Hok Hsend Hreqs Hbox Hid
                    |d r Hcur Hcreate Hok Hsend Hok' Hreqs Hbox Hid
                    |e Hcur Hsend Hreqs Hbox Hid
                    |r Hcur Hsend Hok' Hreqs Hbox Hid];
    rewrite Hreqs, Hcur; eexists; (split; [reflexivity|]);
    (split; [intros Hc; try discriminate | intros Hc; try discriminate]).
  - split; [reflexivity|]. exists []. split; [reflexivity|]. intros r [].
  - split.
    + change (create_request :: ?l) with ([create_request] ++ l)%list.
      now rewrite !creates_app, creates_refresh.
    + eexists; split; [reflexivity|]. intros r Hin Hr.
      apply in_app_or in Hin as [Hin|[<-|[]]].
      * now rewrite (no_send_in_refresh _ _ Hin) in Hr.
      * exists d. repeat split; assumption.
  - split.
    + change (create_request :: ?l) with ([create_request] ++ l)%list.
      rewrite !creates_app, creates_refresh.
      change (send_request ?i ?t :: ?l) with ([send_request i t] ++ l)%list.
      now rewrite creates_app, creates_refresh.
    + eexists; split; [reflexivity|]. intros r0 Hin Hr.
      apply in_app_or in Hin as [Hin|[<-|Hin]].
      * now rewrite (no_send_in_refresh _ _ Hin) in Hr.
      * exists d. repeat split; assumption.
      * now rewrite (no_send_in_refresh _ _ Hin) in Hr.
  - split; [reflexivity|]. exists []. split; [reflexivity|]. intros r [].
  - split.
    + change (send_request ?i ?t :: ?l) with ([send_request i t] ++ l)%list.
      now rewrite creates_app, creates_refresh.
    + eexists; split; [reflexivity|]. apply no_send_in_refresh.
Qed.

Lemma sendMessage_create_before_send_witness :
  exists calls,
    requests (exec (sendMessage healthy "Hello") (page_at "/")) =
      (requests (page_at "/") ++ calls)%list /\
    creates calls = 1.
Proof.
  destruct (sendMessage_create_before_send healthy "Hello" (page_at "/"))
    as (calls & Hreqs & Hfalsy & _); [discriminate|].
  exists calls. split; [exact Hreqs|]. apply Hfalsy. reflexivity.
Defined.

(** The back end hands out the id 0.  After the first message the session
    id is 0, which is not null, and the next message issues a create call
    again. *)
Lemma sendMessage_creates_again_for_zero :
  currentConversationId after_zero = Num 0 /\
  currentConversationId after_zero <> Null /\
  requests (exec (sendMessage (send_down (Num 0)) "Hello again") after_zero) =
    (requests after_zero ++
     [create_request; list_request; send_request (Num 0) "Hello again"])%list.
Proof. repeat split. discriminate. Qed.

(** C7. A run of [sendMessage] on a text that is not empty ends with the
    typing indicator hidden, whatever happens.  When the create call or the
    send call fails (the fetch is rejected, the body does not parse, or it
    carries a truthy [error]) the run adds to the chat box the user's
    bubble and exactly one more element, a model bubble with the error
    message. *)
Theorem sendMessage_failure_bubble srv text p :
  text <> "" ->
  let p' := exec (sendMessage srv text) p in
  let cur := currentConversationId p in
  let log := requests p in
  typingIndicator p' = styled DisplayNone (typingIndicator p) /\
  (forall e,
     truthy cur = false ->
     failure created_error (new_conversation srv (log ++ [create_request]))
       = Some e ->
     chatBox p' = (chatBox p ++ [user_bubble text; error_bubble e])%list) /\
  (forall d e,
     truthy cur = false ->
     new_conversation srv (log ++ [create_request]) = Parsed d ->
     truthy (created_error d) = false ->
     failure sent_error
       (send srv (log ++ create_request :: refresh (conversationHistory p) ++
                    [send_request (conversation_id d) text])) = Some e ->
     chatBox p' = (chatBox p ++ [user_bubble text; error_bubble e])%list) /\
  (forall e,
     truthy cur = true ->
     failure sent_error (send srv (log ++ [send_request cur text])) = Some e ->
     chatBox p' = (chatBox p ++ [user_bubble text; error_bubble e])%list).
Proof.
  intros Htext p' cur log. subst p' cur log.
  destruct (sendMessage_paths srv text p Htext) as (p' & Hrun & Hpath & Hti & _).
  unfold exec. rewrite Hrun. cbn [snd].
  split; [exact Hti|].
  destruct Hpath as [e Hcur Hcreate Hreqs Hbox Hid
                    |d e Hcur Hcreate Hok Hsend Hreqs Hbox Hid
                    |d r Hcur Hcreate Hok Hsend Hok' Hreqs Hbox Hid
                    |e Hcur Hsend Hreqs Hbox Hid
                    |r Hcur Hsend Hok' Hreqs Hbox Hid];
    rewrite Hbox; repeat split.
  all: try (intros; congruence).
  - intros d e' _ Hd Hd'.
    rewrite (failure_none _ _ _ Hd Hd') in Hcreate. discriminate.
  - intros e' _ He'.
    rewrite (failure_none _ _ _ Hcreate Hok) in He'. discriminate.
  - intros e' _ He'.
    rewrite (failure_none _ _ _ Hcreate Hok) in He'. discriminate.
  - intros d' e' _ Hd _ He'. rewrite Hcreate in Hd. injection Hd as <-.
    rewrite (failure_none _ _ _ Hsend Hok') in He'. discriminate.
  - intros e' _ He'.
    rewrite (failure_none _ _ _ Hsend Hok') in He'. discriminate.
Qed.

Lemma sendMessage_failure_bubble_witness :
  typingIndicator (exec (sendMessage (send_down (Num 5)) "Hello") (page_at "/"))
    = Some DisplayNone /\
  chatBox (exec (sendMessage (send_down (Num 5)) "Hello") (page_at "/")) =
    [Suggestions; user_bubble "Hello";
     bot_bubble "Error: Failed to fetch"].
Proof.
  destruct (sendMessage_failure_bubble (send_down (Num 5)) "Hello"
              (page_at "/")) as (Hti & _ & Hbox & _); [discriminate|].
  split; [exact Hti|].
  exact (Hbox (mkCreated Undefined (Num 5)) (JsError "Failed to fetch")
           eq_refl eq_refl eq_refl eq_refl).
Defined.

(** C10, as the code has it.  When the create call of a run succeeds and
    its send call fails, the session id at the end of the run is the id
    the create call returned.  If that id is truthy, a further
    [sendMessage] starts with the send call to that same id, issues no
    create call and keeps the id. *)
Theorem sendMessage_retry_keeps_conversation srv text p d e :
  text <> "" ->
  truthy (currentConversationId p) = false ->
  new_conversation srv (requests p ++ [create_request]) = Parsed d ->
  truthy (created_error d) = false ->
  failure sent_error
    (send srv (requests p ++ create_request ::
                 refresh (conversationHistory p) ++
                 [send_request (conversation_id d) text])) = Some e ->
  let p1 := exec (sendMessage srv text) p in
  currentConversationId p1 = conversation_id d /\
  (truthy (conversation_id d) = true ->
   forall again, again <> "" ->
     let p2 := exec (sendMessage srv again) p1 in
     currentConversationId p2 = conversation_id d /\
     exists rest,
       requests p2 =
         (requests p1 ++ send_request (conversation_id d) again :: rest)%list /\
       creates rest = 0 /\
       forall r, In r rest -> is_send r = false).
Proof.
  intros Htext Hfalsy Hd Hd' Hfail p1. subst p1.
  destruct (sendMessage_paths srv text p Htext) as (p1 & Hrun & Hpath & _).
  unfold exec. rewrite Hrun. cbn [snd].
  assert (Hid1 : currentConversationId p1 = conversation_id d).
  { destruct Hpath as [e0 Hcur Hcreate Hreqs Hbox Hid
                      |d0 e0 Hcur Hcreate Hok Hsend Hreqs Hbox Hid
                      |d0 r Hcur Hcreate Hok Hsend Hok' Hreqs Hbox Hid
                      |e0 Hcur Hsend Hreqs Hbox Hid
                      |r Hcur Hsend Hok' Hreqs Hbox Hid]; try congruence.
    rewrite (failure_none _ _ _ Hd Hd') in Hcreate. discriminate. }
  split; [exact Hid1|].
  intros Htruthy again Hagain.
  destruct (sendMessage_paths srv again p1 Hagain) as (p2 & Hrun2 & Hpath2 & _).
  rewrite Hrun2. cbn [snd].
  rewrite <- Hid1 in Htruthy |- *.
  destruct Hpath2 as [e0 Hcur Hcreate Hreqs Hbox Hid
                     |d0 e0 Hcur Hcreate Hok Hsend Hreqs Hbox Hid
                     |d0 r Hcur Hcreate Hok Hsend Hok' Hreqs Hbox Hid
                     |e0 Hcur Hsend Hreqs Hbox Hid
                     |r Hcur Hsend Hok' Hreqs Hbox Hid]; try congruence.
  - split; [exact Hid|]. exists []. rewrite Hreqs.
    repeat split. intros r [].
  - split; [exact Hid|]. exists (refresh (conversationHistory p1)).
    rewrite Hreqs. split; [reflexivity|].
    split; [apply creates_refresh | apply no_send_in_refresh].
Qed.

Lemma sendMessage_retry_keeps_conversation_witness :
  currentConversationId
    (exec (sendMessage (send_down (Num 5)) "Hello") (page_at "/")) = Num 5 /\
  currentConversationId
    (exec (sendMessage (send_down (Num 5)) "Hello")
       (exec (sendMessage (send_down (Num 5)) "Hello") (page_at "/"))) = Num 5.
Proof.
  destruct (sendMessage_retry_keeps_conversation (send_down (Num 5)) "Hello"
              (page_at "/") (mkCreated Undefined (Num 5))
              (JsError "Failed to fetch"))
    as (Hid & Hretry); try reflexivity; try discriminate.
  split; [exact Hid|].
  destruct (Hretry eq_refl "Hello") as (Hid2 & _); [discriminate|].
  exact Hid2.
Defined.

(** The back end hands out the id 0 and the send call fails: the session
    id is 0 as returned, and the retry creates a conversation again
    instead of starting with the send call. *)
Lemma sendMessage_retry_creates_again_for_zero :
  truthy (currentConversationId (page_at "/")) = false /\
  new_conversation (send_down (Num 0))
    (requests (page_at "/") ++ [create_request]) =
    Parsed (mkCreated Undefined (Num 0)) /\
  send (send_down (Num 0))
    [create_request; list_request; send_request (Num 0) "Hello"] =
    Rejected "Failed to fetch" /\
  currentConversationId after_zero = Num 0 /\
  requests (exec (sendMessage (send_down (Num 0)) "Hello") after_zero) =
    (requests after_zero ++
     [create_request; list_request; send_request (Num 0) "Hello"])%list /\
  creates
    [create_request; list_request; send_request (Num 0) "Hello"] = 1.
Proof. repeat split. Qed.

(** ** Sharing *)

(** C8. Without a session id [handleShare] does nothing: no request, no
    change.  With one, a reply without error puts the returned link in the
    input of the share dialog and opens the dialog; a rejected fetch, a
    body that does not parse or a truthy [error] raises one alert and
    leaves the chat box, the dialog and everything else as they were. *)
Theorem handleShare_alerts srv p :
  (currentConversationId p = Null -> handleShare srv p = (Return tt, p)) /\
  (truthy (currentConversationId p) = true ->
   let call := share_request (currentConversationId p) in
   let answer := share srv (requests p ++ [call]) in
   let p' := exec (handleShare srv) p in
   (forall d,
      answer = Parsed d -> truthy (shared_error d) = false ->
      p' = set_shareModal Flex
             (set_shareLinkInput (share_url d) (add_request call p)) /\
      shareLinkInput p' = share_url d /\
      shareModal p' = Flex /\
      alerts p' = alerts p) /\
   (forall e,
      failure shared_error answer = Some e ->
      p' = add_alert ("Could not share chat: " ++ message_of e)
             (add_request call p) /\
      alerts p' =
        (alerts p ++ [("Could not share chat: " ++ message_of e)%string])%list /\
      chatBox p' = chatBox p /\
      shareModal p' = shareModal p /\
      shareLinkInput p' = shareLinkInput p)).
Proof.
  destruct p as [cur box sc ti t sb eb side sl sm mi al path back als con reqs].
  cbn [currentConversationId requests]. split.
  - intros ->. reflexivity.
  - intros Hcur.
    unfold exec, handleShare, bind at 1, read. run. rewrite Hcur. run.
    unfold try_catch, fetch_json, bind, update, read, throw, ret. run.
    fold (share_request cur).
    destruct (share srv _) as [why|why|d]; run.
    + split; [discriminate|]. intros e He. cbn in He. injection He as <-.
      repeat split; reflexivity.
    + split; [discriminate|]. intros e He. cbn in He. injection He as <-.
      repeat split; reflexivity.
    + split.
      * intros d0 Hd Hok. injection Hd as <-. rewrite Hok. run.
        repeat split; reflexivity.
      * intros e He. cbn -[to_string] in He.
        destruct (truthy (shared_error d)); [|discriminate].
        injection He as <-. run. repeat split; reflexivity.
Qed.

Lemma handleShare_alerts_witness :
  alerts (exec (handleShare not_found) on_conversation_5) =
    ["Could not share chat: not found"] /\
  chatBox (exec (handleShare not_found) on_conversation_5) =
    chatBox on_conversation_5.
Proof.
  destruct (handleShare_alerts not_found on_conversation_5) as (_ & H).
  destruct (H eq_refl) as (_ & Hfail).
  destruct (Hfail (JsError "not found") eq_refl) as (_ & Ha & Hb & _).
  split; [exact Ha | exact Hb].
Defined.

(** ** The id taken from the location *)

Lemma strip_prefix_spec pre : forall s r,
  strip_prefix pre s = Some r <-> s = pre ++ r.
Proof.
  induction pre as [|a pre IH]; intros s r; cbn.
  - split; [intros [= ->]; reflexivity | intros ->; reflexivity].
  - destruct s as [|b s]; [split; discriminate|].
    destruct (Ascii.eqb_spec a b) as [->|Hab].
    + rewrite IH. split; [intros ->; reflexivity | intros [= ->]; reflexivity].
    + split; [discriminate | intros [= Hb _]; congruence].
Qed.

Lemma span_digits_split s :
  s = fst (span_digits s) ++ snd (span_digits s) /\
  all_digits (fst (span_digits s)) = true /\
  starts_with_digit (snd (span_digits s)) = false.
Proof.
  induction s as [|c s (IH1 & IH2 & IH3)]; [repeat split|].
  cbn [span_digits]. destruct (is_digit c) eqn:Hc.
  - destruct (span_digits s) as [d rest]. cbn in *.
    rewrite Hc, <- IH1. repeat split; assumption.
  - cbn. rewrite Hc. repeat split.
Qed.

Lemma span_digits_exact d : forall post,
  all_digits d = true -> starts_with_digit post = false ->
  span_digits (d ++ post) = (d, post).
Proof.
  induction d as [|c d IH]; intros post Hd Hpost.
  - cbn. destruct post as [|c post]; [reflexivity|].
    cbn in *. now rewrite Hpost.
  - cbn in *. apply andb_true_iff in Hd as [Hc Hd].
    now rewrite Hc, IH.
Qed.

Lemma match_at_some path d :
  match_at path = Some d ->
  d <> "" /\ all_digits d = true /\
  exists post,
    path = "/conversation/" ++ d ++ post /\ starts_with_digit post = false.
Proof.
  unfold match_at.
  destruct (strip_prefix "/conversation/" path) as [r|] eqn:Hr; [|discriminate].
  apply strip_prefix_spec in Hr.
  destruct (span_digits_split r) as (Hsplit & Hall & Hmax).
  destruct (fst (span_digits r)) as [|c d0] eqn:Hfst; [discriminate|].
  intros [= <-]. split; [discriminate|]. split; [exact Hall|].
  exists (snd (span_digits r)). split; [|exact Hmax].
  rewrite Hr. f_equal. exact Hsplit.
Qed.

Lemma match_at_none path :
  match_at path = None <-> ~ occurrence "" path.
Proof.
  unfold match_at, occurrence. split.
  - intros Hnone (c & post & -> & Hc). revert Hnone.
    change ("" ++ "/conversation/" ++ String c post)
      with ("/conversation/" ++ String c post).
    destruct (strip_prefix _ _) as [r|] eqn:Hr.
    + apply strip_prefix_spec in Hr. injection Hr as <-.
      cbn [span_digits]. rewrite Hc. destruct (span_digits post). discriminate.
    + assert (H : strip_prefix "/conversation/"
                    ("/conversation/" ++ String c post) = Some (String c post))
        by now apply strip_prefix_spec.
      congruence.
  - intros Hno.
    destruct (strip_prefix "/conversation/" path) as [r|] eqn:Hr; [|reflexivity].
    apply strip_prefix_spec in Hr.
    destruct r as [|c post]; [reflexivity|].
    cbn [span_digits]. destruct (is_digit c) eqn:Hc; [|reflexivity].
    exfalso. apply Hno. exists c, post. split; [exact Hr | exact Hc].
Qed.

Lemma occurrence_tail a pre path :
  occurrence (String a pre) (String a path) <-> occurrence pre path.
Proof.
  unfold occurrence. split; intros (c & post & H & Hc); exists c, post;
    (split; [|exact Hc]).
  - cbn in H. now injection H.
  - cbn. now rewrite H.
Qed.

Lemma occurrence_head a pre b path :
  occurrence (String a pre) (String b path) -> a = b.
Proof. intros (c & post & H & _). cbn in H. now injection H. Qed.

Lemma match_conversation_some path : forall d,
  match_conversation path = Some d ->
  d <> "" /\ all_digits d = true /\
  exists pre post,
    path = pre ++ "/conversation/" ++ d ++ post /\
    starts_with_digit post = false /\
    forall pre', occurrence pre' path -> String.length pre <= String.length pre'.
Proof.
  induction path as [|a path IH]; intros d; cbn [match_conversation].
  - destruct (match_at "") eqn:Hat; [discriminate|discriminate].
  - destruct (match_at (String a path)) as [d0|] eqn:Hat.
    + intros [= ->].
      destruct (match_at_some _ _ Hat) as (Hne & Hall & post & Hpath & Hmax).
      split; [exact Hne|]. split; [exact Hall|].
      exists "", post. split; [exact Hpath|]. split; [exact Hmax|].
      intros pre' _. cbn. lia.
    + intros Hd.
      destruct (IH d Hd) as (Hne & Hall & pre & post & Hpath & Hmax & Hleft).
      split; [exact Hne|]. split; [exact Hall|].
      exists (String a pre), post. split; [rewrite Hpath at 1; reflexivity|].
      split; [exact Hmax|].
      intros pre' Hocc. destruct pre' as [|b pre'].
      * exfalso. now apply (proj1 (match_at_none _) Hat).
      * pose proof (occurrence_head _ _ _ _ Hocc) as ->.
        apply occurrence_tail in Hocc. apply Hleft in Hocc. cbn. lia.
Qed.

Lemma match_conversation_none path :
  match_conversation path = None <-> forall pre, ~ occurrence pre path.
Proof.
  induction path as [|a path IH]; cbn [match_conversation].
  - split; [|reflexivity].
    intros _ pre (c & post & H & _).
    destruct pre; cbn in H; discriminate.
  - destruct (match_at (String a path)) as [d0|] eqn:Hat.
    + split; [discriminate|]. intros Hno. exfalso.
      destruct (match_at_some _ _ Hat) as (Hne & Hall & post & Hpath & _).
      destruct d0 as [|c d0]; [congruence|].
      cbn in Hall. apply andb_true_iff in Hall as [Hc _].
      apply (Hno ""). exists c, (d0 ++ post). split; [exact Hpath | exact Hc].
    + rewrite IH. split.
      * intros Hno pre Hocc. destruct pre as [|b pre].
        -- now apply (proj1 (match_at_none _) Hat).
        -- pose proof (occurrence_head _ _ _ _ Hocc) as ->.
           apply occurrence_tail in Hocc. now apply (Hno pre).
      * intros Hno pre Hocc. apply (Hno (String a pre)).
        now apply occurrence_tail.
Qed.

(** C9, as the code has it.  The pattern is not anchored.  [init] hands
    [loadConversation] an id exactly when [/conversation/] followed by a
    digit occurs somewhere in the path, and the id is then the longest run
    of digits after the leftmost such occurrence; any other path gives
    null.  A path that is [/conversation/] followed by digits only gives
    those digits.  On the chat page [init] runs [loadConversation] on that
    id, then the sidebar refresh. *)
Theorem init_convId_unanchored path :
  (init_convId path = Null <-> forall pre, ~ occurrence pre path) /\
  (init_convId path = Null \/ exists d, init_convId path = Str d) /\
  (forall d,
     init_convId path = Str d ->
     d <> "" /\ all_digits d = true /\
     exists pre post,
       path = pre ++ "/conversation/" ++ d ++ post /\
       starts_with_digit post = false /\
       forall pre', occurrence pre' path ->
         String.length pre <= String.length pre') /\
  (forall d,
     path = "/conversation/" ++ d -> d <> "" -> all_digits d = true ->
     init_convId path = Str d) /\
  (forall srv p,
     app_layout p = true -> pathname p = path ->
     exec (init srv) p =
     exec (loadConversationHistory srv)
       (exec (loadConversation srv (init_convId path)) p)).
Proof.
  unfold init_convId. repeat split.
  - destruct (match_conversation path) eqn:Hm; [discriminate|].
    intros _. now apply match_conversation_none.
  - intros Hno. apply match_conversation_none in Hno. now rewrite Hno.
  - destruct (match_conversation path) as [d|]; [right; now exists d | now left].
  - destruct (match_conversation path) as [d0|] eqn:Hm; [|discriminate].
    injection H as <-. now apply (match_conversation_some path d0).
  - destruct (match_conversation path) as [d0|] eqn:Hm; [|discriminate].
    injection H as <-. now apply (match_conversation_some path d0).
  - destruct (match_conversation path) as [d0|] eqn:Hm; [|discriminate].
    injection H as <-. now apply (match_conversation_some path d0).
  - intros d -> Hne Hall.
    assert (Hat : match_at ("/conversation/" ++ d) = Some d).
    { unfold match_at.
      replace (strip_prefix "/conversation/" ("/conversation/" ++ d))
        with (Some d) by (symmetry; now apply strip_prefix_spec).
      pose proof (span_digits_exact d "" Hall eq_refl) as Hspan.
      assert (Hd : d ++ "" = d) by (clear; induction d; cbn; congruence).
      rewrite Hd in Hspan. rewrite Hspan. cbn.
      destruct d; [congruence|reflexivity]. }
    change ("/conversation/" ++ d) with (String "/" ("conversation/" ++ d)) in *.
    cbn [match_conversation]. now rewrite Hat.
  - intros srv p Hlayout <-.
    unfold exec, init, bind, read, spawn. rewrite Hlayout. reflexivity.
Qed.

Lemma init_convId_unanchored_witness :
  init_convId "/conversation/42" = Str "42" /\
  currentConversationId (exec (init healthy) (page_at "/conversation/42")) =
    Str "42".
Proof.
  destruct (init_convId_unanchored "/conversation/42")
    as (_ & _ & _ & Hexact & Hinit).
  split.
  - apply (Hexact "42"); [reflexivity | discriminate | reflexivity].
  - rewrite (Hinit healthy (page_at "/conversation/42") eq_refl eq_refl).
    reflexivity.
Defined.

(** The id segment [12abc] is not a number, and [init] loads conversation
    12. *)
Lemma init_adopts_digit_prefix :
  all_digits "12abc" = false /\
  init_convId "/conversation/12abc" = Str "12" /\
  init_convId "/conversation/12abc" <> Null /\
  requests (exec (init healthy) (page_at "/conversation/12abc")) =
    [load_request (Str "12"); list_request] /\
  currentConversationId (exec (init healthy) (page_at "/conversation/12abc")) =
    Str "12".
Proof. repeat split. discriminate. Qed.

(** * Beyond the view-model: frames, edge cases, listeners *)

(** ** What an operation leaves alone *)

Section Preserves.

Context {X : Type} (f : page -> X).

Lemma preserves_ret {A} (a : A) : preserves f (ret a).
Proof. intros p. reflexivity. Qed.

Lemma preserves_throw {A} e : preserves f (@throw A e).
Proof. intros p. reflexivity. Qed.

Lemma preserves_read {A} (g : page -> A) : preserves f (read g).
Proof. intros p. reflexivity. Qed.

Lemma preserves_update g : (forall p, f (g p) = f p) -> preserves f (update g).
Proof. intros H p. apply H. Qed.

Lemma preserves_bind {A B} (m : M A) (k : A -> M B) :
  preserves f m -> (forall a, preserves f (k a)) -> preserves f (bind m k).
Proof.
  intros Hm Hk p. unfold bind. specialize (Hm p).
  destruct (m p) as [[a|e] p']; cbn in *; [|exact Hm].
  now rewrite Hk.
Qed.

Lemma preserves_try_catch {A} (m : M A) h :
  preserves f m -> (forall e, preserves f (h e)) ->
  preserves f (try_catch m h).
Proof.
  intros Hm Hh p. unfold try_catch. specialize (Hm p).
  destruct (m p) as [[a|e] p']; cbn in *; [exact Hm|].
  now rewrite Hh.
Qed.

Lemma preserves_try_finally {A} (m : M A) final :
  preserves f m -> preserves f final -> preserves f (try_finally m final).
Proof.
  intros Hm Hf p. unfold try_finally. specialize (Hm p).
  destruct (m p) as [o p']. specialize (Hf p'). cbn in *.
  destruct (final p') as [[u|e] p'']; cbn in *; congruence.
Qed.

Lemma preserves_for_each {A} (g : A -> M unit) l :
  (forall a, preserves f (g a)) -> preserves f (for_each g l).
Proof.
  intros Hg. induction l as [|a l IH]; cbn [for_each].
  - apply preserves_ret.
  - apply preserves_bind; [apply Hg | intros _; exact IH].
Qed.

Lemma preserves_spawn m : preserves f m -> preserves f (spawn m).
Proof. intros Hm p. apply Hm. Qed.

Lemma preserves_settle {A} (r : reply A) : preserves f (settle r).
Proof. destruct r; intros p; reflexivity. Qed.

Lemma preserves_if {A} (b : bool) (m m' : M A) :
  preserves f m -> preserves f m' -> preserves f (if b then m else m').
Proof. now destruct b. Qed.

Lemma preserves_fetch_json srv {A}
    (endpoint : server -> list request -> reply A) r :
  (forall p, f (add_request r p) = f p) ->
  preserves f (fetch_json srv endpoint r).
Proof.
  intros H. unfold fetch_json.
  apply preserves_bind; [now apply preserves_update|]. intros _.
  apply preserves_bind; [apply preserves_read|]. intros log.
  apply preserves_settle.
Qed.

End Preserves.

(** Decomposes a frame goal along the structure of the operation; the
    setters are left, each to be checked on the fields. *)
Ltac frame :=
  repeat first
    [ progress intros
    | match goal with
      | |- preserves _ (bind _ _) => apply preserves_bind
      | |- preserves _ (try_finally _ _) => apply preserves_try_finally
      | |- preserves _ (try_catch _ _) => apply preserves_try_catch
      | |- preserves _ (for_each _ _) => apply preserves_for_each
      | |- preserves _ (spawn _) => apply preserves_spawn
      | |- preserves _ (fetch_json _ _ _) => apply preserves_fetch_json
      | |- preserves _ (update _) => apply preserves_update
      | |- preserves _ (ret _) => apply preserves_ret
      | |- preserves _ (throw _) => apply preserves_throw
      | |- preserves _ (read _) => apply preserves_read
      | |- preserves _ (if _ then _ else _) => apply preserves_if
      | |- preserves _ (match ?x with _ => _ end) => destruct x
      | p : page |- _ = _ =>
          destruct p; cbn;
          repeat match goal with
                 | |- context [match ?x with _ => _ end] => destruct x
                 end;
          reflexivity
      end ].

Lemma addMessageToUI_beside_chat text who :
  preserves beside_chat (addMessageToUI text who).
Proof.
  unfold addMessageToUI.
  destruct (_ =? ""); [apply preserves_throw|]. frame.
Qed.

Lemma loadConversationHistory_beside_chat srv :
  preserves beside_chat (loadConversationHistory srv).
Proof. unfold loadConversationHistory, render_entry. frame. Qed.

Lemma loadConversationHistory_beside_sidebar srv :
  preserves beside_sidebar (loadConversationHistory srv).
Proof. unfold loadConversationHistory, render_entry. frame. Qed.

Create HintDb frame.

#[local] Hint Resolve addMessageToUI_beside_chat
  loadConversationHistory_beside_chat
  loadConversationHistory_beside_sidebar : frame.

Ltac frames := frame; auto with frame.

(** Tails that leave [f] alone can be dropped when reading [f]. *)
Lemma preserved_after_bind {A B X} (f : page -> X) (m : M A) (k : A -> M B) p :
  (forall a, preserves f (k a)) -> f (snd (bind m k p)) = f (snd (m p)).
Proof.
  intros Hk. unfold bind. destruct (m p) as [[a|e] p']; [|reflexivity].
  apply Hk.
Qed.

Lemma preserved_after_catch {A X} (f : page -> X) (m : M A) h p :
  (forall e, preserves f (h e)) -> f (snd (try_catch m h p)) = f (snd (m p)).
Proof.
  intros Hh. unfold try_catch. destruct (m p) as [[a|e] p']; [reflexivity|].
  apply Hh.
Qed.

Lemma preserved_after_finally {A X} (f : page -> X) (m : M A) final p :
  preserves f final -> f (snd (try_finally m final p)) = f (snd (m p)).
Proof.
  intros Hf. unfold try_finally. destruct (m p) as [o p'].
  specialize (Hf p'). destruct (final p') as [[u|e] p'']; exact Hf.
Qed.

Lemma sendMessage_frame srv text :
  preserves beside_chat (sendMessage srv text).
Proof. unfold sendMessage, showTypingIndicator. frames. Qed.

(** X2. [sendMessage] never writes the share and export buttons, the
    share dialog and its link, the message box or the alerts: a new
    conversation created by a first message leaves the share and export
    buttons as hidden as they were. *)
Theorem sendMessage_beside_chat srv text p :
  let p' := exec (sendMessage srv text) p in
  shareChatBtn p' = shareChatBtn p /\
  exportMenuBtn p' = exportMenuBtn p /\
  shareLinkInput p' = shareLinkInput p /\
  shareModal p' = shareModal p /\
  messageInput p' = messageInput p /\
  alerts p' = alerts p.
Proof.
  pose proof (sendMessage_frame srv text p) as H.
  unfold beside_chat in H. cbv zeta. unfold exec.
  injection H as -> -> -> -> -> _ ->. repeat split.
Qed.

(** X1. Whatever the back end answers, a run of [sendMessage] on a text
    that is not empty adds exactly two elements at the end of the chat
    box: the user's bubble with the text as given, then one model bubble
    (the reply, or the error). *)
Theorem sendMessage_appends_two srv text p :
  text <> "" ->
  exists answer,
    chatBox (exec (sendMessage srv text) p) =
    (chatBox p ++ [user_bubble text; bot_bubble answer])%list.
Proof.
  intros Htext.
  destruct (sendMessage_paths srv text p Htext) as (p' & Hrun & Hpath & _).
  unfold exec. rewrite Hrun. cbn [snd].
  destruct Hpath; eexists; eassumption.
Qed.

Lemma sendMessage_appends_two_witness :
  exists answer,
    chatBox (exec (sendMessage not_found "Hello") on_conversation_5) =
    (chatBox on_conversation_5 ++ [user_bubble "Hello"; bot_bubble answer])%list.
Proof. apply sendMessage_appends_two. discriminate. Defined.

Lemma loadConversationHistory_returns srv p :
  loadConversationHistory srv p =
  (Return tt, exec (loadConversationHistory srv) p).
Proof. unfold exec. now rewrite loadConversationHistory_run. Qed.

Lemma loadConversationHistory_location srv p :
  pathname (exec (loadConversationHistory srv) p) = pathname p /\
  back_entries (exec (loadConversationHistory srv) p) = back_entries p.
Proof.
  pose proof (loadConversationHistory_beside_sidebar srv p) as E.
  unfold beside_sidebar in E. unfold exec.
  split; congruence.
Qed.

(** [addMessageToUI] writes the chat box and nothing else. *)
Lemma addMessageToUI_frame {X} (f : page -> X) text who :
  (forall box p, f (set_chatBox box p) = f p) ->
  preserves f (addMessageToUI text who).
Proof.
  intros H. unfold addMessageToUI.
  match goal with |- context [if ?b then throw _ else _] => destruct b end.
  - apply preserves_throw.
  - apply preserves_update. intros p. apply H.
Qed.

Lemma send_phase_beside_sidebar_location srv text :
  preserves (fun p => (pathname p, back_entries p)) (send_phase srv text).
Proof.
  assert (H : preserves (fun p => (pathname p, back_entries p))
                (loadConversationHistory srv)).
  { intros p. destruct (loadConversationHistory_location srv p) as [E1 E2].
    unfold exec in *. now rewrite E1, E2. }
  unfold send_phase. frame; try exact H.
  apply addMessageToUI_frame. intros box p. destruct p; reflexivity.
Qed.

(** Where [create_phase] leaves the location. *)
Lemma create_phase_location srv q :
  let q' := snd (create_phase srv q) in
  match failure created_error
          (new_conversation srv (requests q ++ [create_request])) with
  | Some _ => pathname q' = pathname q /\ back_entries q' = back_entries q
  | None =>
      exists d,
        new_conversation srv (requests q ++ [create_request]) = Parsed d /\
        pathname q' = "/conversation/" ++ to_string (conversation_id d) /\
        back_entries q' = pathname q :: back_entries q
  end.
Proof.
  destruct q as [cur box sc ti t sb eb side sl sm mi al path back als con reqs].
  unfold create_phase, fetch_json, bind, update, read, throw, ret. run.
  fold create_request.
  destruct (new_conversation srv _) as [why|why|d] eqn:Hreply; run;
    try (split; reflexivity).
  destruct (truthy (created_error d)) eqn:Herr; run; [split; reflexivity|].
  exists d. split; [reflexivity|].
  rewrite loadConversationHistory_returns. cbn [snd].
  match goal with |- context [exec (loadConversationHistory srv) ?q0] =>
    destruct (loadConversationHistory_location srv q0) as [E1 E2]
  end.
  rewrite E1, E2. split; reflexivity.
Qed.

(** [sendMessage] on a text that is not empty: the [try] statement, run
    on the page with the user's bubble, the suggestions hidden and the
    typing indicator shown. *)
Lemma sendMessage_after_prelude srv text p :
  text <> "" ->
  sendMessage srv text p =
  try_finally
    (try_catch
       (bind (if negb (truthy (currentConversationId p))
              then create_phase srv else ret tt)
          (fun _ => send_phase srv text))
       (fun error => addMessageToUI ("Error: " ++ message_of error) "model"))
    (showTypingIndicator false)
    (set_typingIndicator (styled Flex (typingIndicator p))
       (set_chatBox (chatBox p ++ [user_bubble text])
          (set_suggestionsContainer
             (styled DisplayNone (suggestionsContainer p)) p))).
Proof.
  intros Htext. rewrite sendMessage_phases.
  apply String.eqb_neq in Htext. rewrite Htext.
  destruct p; reflexivity.
Qed.

(** X3. [sendMessage] moves the location exactly when it creates a
    conversation: with a session id, or when the create call fails, the
    location and the entries behind the back button stay; when the create
    call succeeds the location becomes [/conversation/{id}] with the old
    one behind it, whether or not the message is then delivered. *)
Theorem sendMessage_location srv text p :
  text <> "" ->
  let p' := exec (sendMessage srv text) p in
  let answer := new_conversation srv (requests p ++ [create_request]) in
  (truthy (currentConversationId p) = true ->
   pathname p' = pathname p /\ back_entries p' = back_entries p) /\
  (truthy (currentConversationId p) = false ->
   forall e, failure created_error answer = Some e ->
   pathname p' = pathname p /\ back_entries p' = back_entries p) /\
  (truthy (currentConversationId p) = false ->
   forall d, answer = Parsed d -> truthy (created_error d) = false ->
   pathname p' = "/conversation/" ++ to_string (conversation_id d) /\
   back_entries p' = pathname p :: back_entries p).
Proof.
  intros Htext. cbv zeta. unfold exec.
  rewrite (sendMessage_after_prelude srv text p Htext).
  set (loc := fun q => (pathname q, back_entries q)).
  assert (Hloc : forall q a b, loc q = (a, b) ->
                   pathname q = a /\ back_entries q = b)
    by (unfold loc; intros q a b [= -> ->]; now split).
  match goal with |- context [try_finally _ _ ?q] => set (q0 := q) end.
  assert (Hq0 : loc q0 = loc p /\ requests q0 = requests p)
    by (subst q0; destruct p; split; reflexivity).
  destruct Hq0 as [Hq0 Hreqs].
  assert (Hend : forall m : M unit,
            loc (snd (try_finally
                        (try_catch (bind m (fun _ => send_phase srv text))
                           (fun error =>
                              addMessageToUI ("Error: " ++ message_of error)
                                "model"))
                        (showTypingIndicator false) q0)) = loc (snd (m q0))).
  { intros m. rewrite preserved_after_finally
      by (unfold showTypingIndicator; frame).
    rewrite preserved_after_catch
      by (intros e; apply addMessageToUI_frame; intros b q; destruct q;
          reflexivity).
    apply preserved_after_bind. intros _.
    apply send_phase_beside_sidebar_location. }
  destruct (truthy (currentConversationId p)) eqn:Hcur; cbn [negb].
  - split; [intros _|split; discriminate].
    apply Hloc. rewrite (Hend (ret tt)). exact Hq0.
  - split; [discriminate|].
    pose proof (create_phase_location srv q0) as Hc.
    cbv zeta in Hc. rewrite Hreqs in Hc.
    split; intros _.
    + intros e He. rewrite He in Hc. apply Hloc.
      rewrite (Hend (create_phase srv)). unfold loc in *.
      destruct Hc as [-> ->]. exact Hq0.
    + intros d Hd Hok. rewrite (failure_none _ _ _ Hd Hok) in Hc.
      destruct Hc as (d' & Hd' & Hp & Hb).
      rewrite Hd in Hd'. injection Hd' as <-.
      apply Hloc. rewrite (Hend (create_phase srv)). unfold loc in *.
      rewrite Hp, Hb. now injection Hq0 as -> ->.
Qed.

Lemma sendMessage_location_witness :
  pathname (exec (sendMessage (send_down (Num 5)) "Hello") (page_at "/")) =
    "/conversation/5" /\
  back_entries (exec (sendMessage (send_down (Num 5)) "Hello") (page_at "/")) =
    ["/"].
Proof.
  destruct (sendMessage_location (send_down (Num 5)) "Hello" (page_at "/"))
    as (_ & _ & H); [discriminate|].
  exact (H eq_refl (mkCreated Undefined (Num 5)) eq_refl eq_refl).
Defined.

(** ** Loading: the rest of the cases *)

Lemma set_chatBox_twice box box' p :
  set_chatBox box (set_chatBox box' p) = set_chatBox box p.
Proof. now destruct p. Qed.

(** Rendering stops at the first message whose sender is neither of the
    two known ones; only the chat box has changed by then. *)
Lemma render_messages_unknown ms : forall p,
  forallb known_sender ms = false ->
  exists box,
    for_each (fun m => addMessageToUI (content m) (sender m)) ms p =
    (Throw TokenSyntaxError, set_chatBox box p).
Proof.
  induction ms as [|m ms IH]; intros p Hms; [discriminate|].
  cbn [forallb] in Hms. cbn [for_each]. unfold bind at 1.
  destruct (known_sender m) eqn:Hm.
  - rewrite addMessageToUI_known by exact Hm.
    destruct (IH (set_chatBox
                    (chatBox p ++
                     [if sender m =? "user" then user_bubble (content m)
                      else bot_bubble (content m)]) p) Hms) as (box & ->).
    exists box. now rewrite set_chatBox_twice.
  - exists (chatBox p). unfold known_sender in Hm.
    apply orb_false_iff in Hm as [Hu Hm].
    unfold addMessageToUI. rewrite Hu, Hm. cbn. now destruct p.
Qed.

Lemma loadConversation_unknown srv v p data :
  truthy v = true ->
  get_conversation srv (requests p ++ [load_request v]) = Parsed data ->
  truthy (conversation_error data) = false ->
  forallb known_sender (messages data) = false ->
  loadConversation srv v p =
  (Return tt,
   exec resetChatArea
     (add_console "Failed to load conversation:" TokenSyntaxError
        (add_request (load_request v) p))).
Proof.
  intros Hv Hreply Herr Hms. unfold loadConversation. rewrite Hv.
  destruct p as [cur box sc ti t sb eb side sl sm mi al path back als con reqs].
  cbn [requests] in Hreply.
  unfold try_catch, fetch_json, bind at 1 2 3, update, read. run.
  fold (load_request v). rewrite Hreply. run.
  unfold bind at 1. run. rewrite Herr. run.
  unfold bind at 1 2 3. run.
  match goal with |- context [for_each ?f ?l ?q] =>
    destruct (render_messages_unknown l q Hms) as (box' & ->)
  end.
  destruct sc; reflexivity.
Qed.

(** X4. A response without error in which some message has a sender other
    than [user] and [model] makes the load fail as a rejected fetch would:
    the exception of the empty class token is logged, no message of the
    response stays rendered, the title is [New Chat], the share and export
    buttons are hidden, and the session id and the location are those of
    before. *)
Theorem loadConversation_unknown_sender srv v p data :
  truthy v = true ->
  get_conversation srv (requests p ++ [load_request v]) = Parsed data ->
  truthy (conversation_error data) = false ->
  forallb known_sender (messages data) = false ->
  let p' := exec (loadConversation srv v) p in
  rendered p' = [] /\
  chatTitle p' = "New Chat" /\
  shareChatBtn p' = styled DisplayNone (shareChatBtn p) /\
  exportMenuBtn p' = styled DisplayNone (exportMenuBtn p) /\
  currentConversationId p' = currentConversationId p /\
  pathname p' = pathname p /\
  console p' =
    (console p ++ [("Failed to load conversation:", TokenSyntaxError)])%list.
Proof.
  intros Hv Hreply Herr Hms. cbv zeta. unfold exec.
  rewrite (loadConversation_unknown srv v p data Hv Hreply Herr Hms).
  destruct p as [cur box sc ti t sb eb side sl sm mi al path back als con reqs].
  destruct sc; cbn; repeat split; reflexivity.
Qed.

Lemma loadConversation_unknown_sender_witness :
  rendered (exec (loadConversation stray_sender (Str "5")) on_conversation_5)
    = [] /\
  currentConversationId
    (exec (loadConversation stray_sender (Str "5")) on_conversation_5) =
    Str "5".
Proof.
  pose proof (loadConversation_unknown_sender stray_sender (Str "5")
                on_conversation_5 stray_thread eq_refl eq_refl eq_refl eq_refl)
    as H.
  cbv zeta in H. split; [apply H|].
  destruct H as (_ & _ & _ & _ & Hid & _). exact Hid.
Defined.

(** Every way through [loadConversation] with a truthy id: the
    conversation is shown, or the chat area is reset after one console
    line. *)
Lemma loadConversation_cases srv v p :
  truthy v = true ->
  (exists data,
     get_conversation srv (requests p ++ [load_request v]) = Parsed data /\
     truthy (conversation_error data) = false /\
     forallb known_sender (messages data) = true) \/
  (exists e,
     loadConversation srv v p =
     (Return tt,
      exec resetChatArea
        (add_console "Failed to load conversation:" e
           (add_request (load_request v) p)))).
Proof.
  intros Hv.
  destruct (failure conversation_error
              (get_conversation srv (requests p ++ [load_request v])))
    as [e|] eqn:Hfail.
  - right. exists e. now apply loadConversation_failed.
  - destruct (get_conversation srv _) as [why|why|data] eqn:Hreply;
      try discriminate.
    cbn in Hfail.
    destruct (truthy (conversation_error data)) eqn:Herr; [discriminate|].
    destruct (forallb known_sender (messages data)) eqn:Hms.
    + left. exists data. repeat split; assumption.
    + right. exists TokenSyntaxError.
      exact (loadConversation_unknown srv v p data Hv Hreply Herr Hms).
Qed.

(** X5. [loadConversation] issues no request for a falsy id and exactly
    one, [GET /conversations/{id}], for a truthy id, whatever the answer
    and whatever it then renders. *)
Theorem loadConversation_one_request srv v p :
  requests (exec (loadConversation srv v) p) =
  (requests p ++ if truthy v then [load_request v] else [])%list.
Proof.
  destruct (truthy v) eqn:Hv.
  - destruct (loadConversation_cases srv v p Hv)
      as [(data & Hreply & Herr & Hms)|(e & Hrun)]; unfold exec.
    + rewrite (loadConversation_loaded srv v p data Hv Hreply Herr Hms).
      now destruct p.
    + rewrite Hrun. destruct p as [? ? [] ? ? ? ? ? ? ? ? ? ? ? ? ? ?];
        reflexivity.
  - unfold exec. rewrite loadConversation_falsy by exact Hv.
    rewrite app_nil_r.
    destruct p as [? ? [] ? ? ? ? ? ? ? ? ? ? ? ? ? ?]; reflexivity.
Qed.

(** ** The sidebar, failing and clicked *)

(** X6. A sidebar refresh never writes the session id, the chat box, the
    suggestions, the typing indicator, the location or the share and export
    buttons.  Without the sidebar element it does nothing at all; when its
    fetch is rejected or the body does not parse, the entries rendered
    before and the title stay, and one console line is added. *)
Theorem loadConversationHistory_keeps_conversation srv p :
  let p' := exec (loadConversationHistory srv) p in
  beside_sidebar p' = beside_sidebar p /\
  beside_chat p' = beside_chat p /\
  (conversationHistory p = None -> p' = p) /\
  (forall old why,
     conversationHistory p = Some old ->
     get_conversations srv (requests p ++ [list_request]) = Rejected why \/
     get_conversations srv (requests p ++ [list_request]) = Malformed why ->
     conversationHistory p' = Some old /\
     chatTitle p' = chatTitle p /\
     console p' = (console p ++ [("Failed to load history:", JsError why)])%list).
Proof.
  cbv zeta. split; [apply loadConversationHistory_beside_sidebar|].
  split; [apply loadConversationHistory_beside_chat|].
  unfold exec. rewrite loadConversationHistory_run. cbn [snd].
  destruct p as [cur box sc ti t sb eb side sl sm mi al path back als con reqs].
  cbn [conversationHistory requests]. split.
  - now intros ->.
  - intros old why -> [-> | ->]; repeat split; reflexivity.
Qed.

Lemma loadConversationHistory_keeps_conversation_witness :
  conversationHistory
    (exec (loadConversationHistory (send_down (Num 5)))
       (set_conversationHistory None on_conversation_5)) = None /\
  links (exec (loadConversationHistory
                 (fixed_server (Rejected "") (Rejected "") (Rejected "")
                    (Malformed "Unexpected token <") (Rejected "")))
           on_conversation_5) = links on_conversation_5.
Proof.
  split.
  - destruct (loadConversationHistory_keeps_conversation (send_down (Num 5))
                (set_conversationHistory None on_conversation_5))
      as (_ & _ & H & _).
    cbv zeta in H. now rewrite (H eq_refl).
  - destruct (loadConversationHistory_keeps_conversation
                (fixed_server (Rejected "") (Rejected "") (Rejected "")
                   (Malformed "Unexpected token <") (Rejected ""))
                on_conversation_5) as (_ & _ & _ & H).
    destruct (H (links on_conversation_5) "Unexpected token <" eq_refl
                (or_intror eq_refl)) as (Hside & _).
    unfold links at 1. now rewrite Hside.
Defined.

Lemma one_link_per_id l a :
  NoDup (map data_id l) -> In a l ->
  List.length (filter (fun b => loose_eq (Str (data_id b)) (Str (data_id a))) l)
  = 1.
Proof.
  cbn [loose_eq].
  induction l as [|b l IH]; intros Hnd Hin; [contradiction|].
  cbn [map] in Hnd. apply NoDup_cons_iff in Hnd as [Hb Hnd].
  cbn [filter]. destruct Hin as [->|Hin].
  - rewrite String.eqb_refl. cbn [List.length]. f_equal.
    clear IH Hnd. induction l as [|c l IH]; [reflexivity|].
    cbn [filter map] in *.
    destruct (String.eqb_spec (data_id c) (data_id a)) as [E|_].
    + exfalso. apply Hb. left. exact E.
    + apply IH. intros H. apply Hb. now right.
  - destruct (String.eqb_spec (data_id b) (data_id a)) as [E|_].
    + exfalso. apply Hb. rewrite E. now apply in_map.
    + now apply IH.
Qed.

(** X7. A click on the sidebar link at position [i].  If its [data-id]
    is the empty string the click starts a new chat, without a request.
    Otherwise, when the load succeeds and no two links carry the same
    [data-id], the click leaves exactly one link active, the clicked one,
    with the session id and the location set from its [data-id]. *)
Theorem history_click srv p i a :
  nth_error (links p) i = Some a ->
  let p' := exec (on_history_click srv (Some i)) p in
  (data_id a = "" ->
   p' = exec (loadConversation srv Null) p /\ requests p' = requests p) /\
  (data_id a <> "" ->
   NoDup (map data_id (links p)) ->
   forall data,
     get_conversation srv (requests p ++ [load_request (Str (data_id a))]) =
       Parsed data ->
     truthy (conversation_error data) = false ->
     forallb known_sender (messages data) = true ->
     active_links p' = 1 /\
     nth_error (links p') i = Some (set_active true a) /\
     currentConversationId p' = Str (data_id a) /\
     pathname p' = "/conversation/" ++ data_id a).
Proof.
  intros Hi. cbv zeta. unfold exec at 1 3 4 5 6 7, on_history_click, bind, read, spawn.
  rewrite Hi. cbn [snd]. split.
  - intros E. rewrite E. unfold exec.
    rewrite !loadConversation_falsy by reflexivity.
    split; [reflexivity|].
    destruct p as [? ? [] ? ? ? ? ? ? ? ? ? ? ? ? ? ?]; reflexivity.
  - intros Hne Hnd data Hreply Herr Hms.
    assert (Hv : truthy (Str (data_id a)) = true).
    { cbn. destruct (String.eqb_spec (data_id a) ""); [contradiction|reflexivity]. }
    unfold exec, active_links, links.
    rewrite (loadConversation_loaded srv _ p data Hv Hreply Herr Hms).
    unfold links in Hi, Hnd.
    destruct p as [cur box sc ti t sb eb [l|] sl sm mi al path back als con reqs];
      cbn -[append loose_eq] in *; [|now destruct i].
    split; [|split; [|split; reflexivity]].
    + rewrite active_after_toggle. apply one_link_per_id; [exact Hnd|].
      now apply nth_error_In with i.
    + rewrite nth_error_map, Hi. cbn [option_map loose_eq].
      now rewrite String.eqb_refl.
Qed.

Lemma history_click_witness :
  active_links (exec (on_history_click healthy (Some 0)) on_conversation_5) = 1
  /\ currentConversationId
       (exec (on_history_click healthy (Some 0)) on_conversation_5) = Str "5".
Proof.
  destruct (history_click healthy on_conversation_5 0
              (mkLink "/conversation/5" "Trip" "5" true) eq_refl) as (_ & H).
  assert (Hnd : NoDup (map data_id (links on_conversation_5))).
  { repeat constructor; cbn; intuition discriminate. }
  destruct (H ltac:(discriminate) Hnd hello_thread eq_refl eq_refl eq_refl)
    as (Ha & _ & Hid & _).
  split; [exact Ha | exact Hid].
Defined.

(** ** Numbers as ids: through [data-id] and back *)

Lemma of_uint_acc_value d : forall acc,
  Z.pos (Pos.of_uint_acc d acc) =
  (Z.pos acc * 10 ^ Z.of_nat (Decimal.nb_digits d) + Z.of_N (Pos.of_uint d))%Z.
Proof.
  induction d as [|d IH|d IH|d IH|d IH|d IH|d IH|d IH|d IH|d IH|d IH];
    intros acc; cbn [Pos.of_uint_acc Pos.of_uint Decimal.nb_digits];
    try (cbn; lia);
    rewrite ?Nat2Z.inj_succ, ?Z.pow_succ_r by lia;
    rewrite ?N2Z.inj_pos, !IH, ?Pos2Z.inj_add, ?Pos2Z.inj_mul; ring.
Qed.

Lemma digits_of_uint d : forall acc,
  digits 10 acc (NilEmpty.string_of_uint d) =
  Some (acc * 10 ^ Z.of_nat (Decimal.nb_digits d) + Z.of_N (Pos.of_uint d))%Z.
Proof.
  induction d as [|d IH|d IH|d IH|d IH|d IH|d IH|d IH|d IH|d IH|d IH];
    intros acc;
    cbn [NilEmpty.string_of_uint digits Pos.of_uint Decimal.nb_digits];
    try (cbn; f_equal; lia);
    change (digit_val 10 _) with (Some 0%Z) || change (digit_val 10 _) with (Some 1%Z)
    || change (digit_val 10 _) with (Some 2%Z) || change (digit_val 10 _) with (Some 3%Z)
    || change (digit_val 10 _) with (Some 4%Z) || change (digit_val 10 _) with (Some 5%Z)
    || change (digit_val 10 _) with (Some 6%Z) || change (digit_val 10 _) with (Some 7%Z)
    || change (digit_val 10 _) with (Some 8%Z) || change (digit_val 10 _) with (Some 9%Z);
    cbv iota; rewrite IH, ?Nat2Z.inj_succ, ?Z.pow_succ_r by lia;
    rewrite ?N2Z.inj_pos, ?of_uint_acc_value; f_equal; ring.
Qed.

Lemma all_digits_of_uint d : all_digits (NilEmpty.string_of_uint d) = true.
Proof. induction d; cbn [NilEmpty.string_of_uint all_digits]; auto. Qed.

Lemma digit_is_no_space c : is_digit c = true -> is_space c = false.
Proof. unfold is_digit, is_space. cbv zeta. lia. Qed.

Lemma trim_digits s : all_digits s = true -> trim s = s.
Proof.
  intros H. unfold trim.
  assert (E : trim_start s = s).
  { destruct s as [|c s]; [reflexivity|]. cbn in *.
    apply andb_true_iff in H as [Hc _]. now rewrite (digit_is_no_space c Hc). }
  rewrite E. induction s as [|c s IH]; [reflexivity|].
  cbn in *. apply andb_true_iff in H as [Hc Hs].
  assert (E' : trim_start s = s).
  { destruct s as [|c' s']; [reflexivity|]. cbn in *.
    apply andb_true_iff in Hs as [Hc' _]. now rewrite (digit_is_no_space c' Hc'). }
  rewrite (IH Hs E'). destruct s; [|reflexivity].
  now rewrite (digit_is_no_space c Hc).
Qed.

Lemma append_empty s : s ++ "" = s.
Proof. induction s; cbn; congruence. Qed.

(** A text of digits converts to the number it spells. *)
Lemma to_number_digits s v :
  s <> "" -> all_digits s = true -> digits 10 0 s = Some v ->
  to_number s = Some v.
Proof.
  intros Hne Hall Hv. unfold to_number. rewrite (trim_digits s Hall).
  destruct s as [|c s]; [congruence|].
  assert (Hc : is_digit c = true) by (cbn [all_digits] in Hall; now apply andb_true_iff in Hall).
  assert (Hnd : non_decimal (String c s) = None).
  { unfold non_decimal.
    destruct c as [[] [] [] [] [] [] [] []]; try reflexivity; try discriminate.
    destruct s as [|p r]; [reflexivity|].
    cbn [all_digits] in Hall. apply andb_true_iff in Hall as [_ Hall].
    apply andb_true_iff in Hall as [Hp _].
    revert Hp. unfold is_digit. cbv zeta. intros Hp.
    destruct (Z.eqb_spec (code p) 120); [lia|].
    destruct (Z.eqb_spec (code p) 88); [lia|].
    destruct (Z.eqb_spec (code p) 111); [lia|].
    destruct (Z.eqb_spec (code p) 79); [lia|].
    destruct (Z.eqb_spec (code p) 98); [lia|].
    destruct (Z.eqb_spec (code p) 66); [lia|]. reflexivity. }
  rewrite Hnd.
  assert (Hsg : signed (String c s) = (1%Z, String c s)).
  { destruct c as [[] [] [] [] [] [] [] []]; try reflexivity; discriminate. }
  rewrite Hsg. unfold unsigned_decimal.
  pose proof (span_digits_exact (String c s) "" Hall eq_refl) as Hspan.
  rewrite append_empty in Hspan. rewrite Hspan, append_empty.
  rewrite Hv. cbn [exponent String.length]. unfold scale.
  cbn [Z.of_nat Z.sub Z.opp Z.leb Z.compare Z.add Z.pow Z.pow_pos].
  f_equal. lia.
Qed.

Lemma to_uint_not_nil p : Pos.to_uint p <> Decimal.Nil.
Proof.
  intros E. pose proof (DecimalPos.Unsigned.of_to p) as H.
  rewrite E in H. discriminate.
Qed.

Lemma digits_of_positive p :
  let s := NilZero.string_of_uint (Pos.to_uint p) in
  s <> "" /\ all_digits s = true /\ digits 10 0 s = Some (Z.pos p).
Proof.
  cbv zeta. pose proof (to_uint_not_nil p) as Hn.
  unfold NilZero.string_of_uint.
  destruct (Pos.to_uint p) as [|d|d|d|d|d|d|d|d|d|d] eqn:E; [congruence|..];
    (split; [discriminate|]); (split; [apply all_digits_of_uint|]);
    rewrite digits_of_uint, <- E, DecimalPos.Unsigned.of_to; f_equal; lia.
Qed.

(** [ToString] then [ToNumber] gives an integer back. *)
Lemma to_number_to_string n : to_number (to_string (Num n)) = Some n.
Proof.
  destruct n as [|p|p]; [reflexivity| |]; cbn [to_string Z.to_int NilZero.string_of_int].
  - destruct (digits_of_positive p) as (Hne & Hall & Hv).
    now apply to_number_digits.
  - destruct (digits_of_positive p) as (Hne & Hall & Hv).
    set (s := NilZero.string_of_uint (Pos.to_uint p)) in *.
    pose proof (to_number_digits s (Z.pos p) Hne Hall Hv) as H.
    unfold to_number in *. rewrite (trim_digits s Hall) in H.
    assert (Ht : trim (String "-" s) = String "-" s).
    { unfold trim. cbn [trim_start]. change (is_space "-") with false. cbv iota.
      cbn [trim_end]. fold (trim_end s).
      assert (E : trim_end s = s).
      { pose proof (trim_digits s Hall) as E. unfold trim in E.
        destruct s as [|c s']; [reflexivity|].
        cbn [trim_start] in E. cbn [all_digits] in Hall. apply andb_true_iff in Hall as [Hc _].
        now rewrite (digit_is_no_space c Hc) in E. }
      rewrite E. destruct s; [congruence|reflexivity]. }
    rewrite Ht. change (non_decimal (String "-" s)) with (@None (option Z)).
    cbv iota. change (signed (String "-" s)) with ((-1)%Z, s).
    destruct s as [|c s'] eqn:Es; [congruence|].
    destruct (non_decimal (String c s')) as [r|] eqn:Hnd.
    + exfalso. revert Hnd. cbn [all_digits] in Hall. apply andb_true_iff in Hall as [Hc Hall].
      unfold non_decimal.
      destruct c as [[] [] [] [] [] [] [] []]; try discriminate.
      destruct s' as [|q r']; [discriminate|].
      cbn [all_digits] in Hall. apply andb_true_iff in Hall as [Hq _].
      revert Hq. unfold is_digit. cbv zeta. intros Hq.
      destruct (Z.eqb_spec (code q) 120); [lia|].
      destruct (Z.eqb_spec (code q) 88); [lia|].
      destruct (Z.eqb_spec (code q) 111); [lia|].
      destruct (Z.eqb_spec (code q) 79); [lia|].
      destruct (Z.eqb_spec (code q) 98); [lia|].
      destruct (Z.eqb_spec (code q) 66); [lia|]. discriminate.
    + assert (Hsg : signed (String c s') = (1%Z, String c s')).
      { cbn [all_digits] in Hall. apply andb_true_iff in Hall as [Hc _].
        destruct c as [[] [] [] [] [] [] [] []]; try reflexivity; discriminate. }
      rewrite Hsg in H.
      destruct (unsigned_decimal (String c s')) as [m|]; [|discriminate].
      assert (Hm : (1 * m)%Z = Z.pos p) by congruence.
      f_equal. rewrite <- Pos2Z.opp_pos. lia.
Qed.

(** An id that the server gave as a number or as text equals ([==]) its
    own [data-id]; [null] and a missing id do not. *)
Lemma id_matches_data_id id :
  loose_eq id (Str (to_string id)) =
  match id with
  | Num _ | Str _ => true
  | Undefined | Null => false
  end.
Proof.
  destruct id as [| |n|s]; try reflexivity.
  - cbn [loose_eq]. rewrite to_number_to_string. apply Z.eqb_refl.
  - cbn. apply String.eqb_refl.
Qed.

(** X8. The session id held after a click on a sidebar link is the text of
    that link's [data-id].  A later refresh whose list has the entry the
    link was rendered from marks that entry active again when its id is a
    number or text (a number and its decimal text are equal for [==]),
    and does not when its id is [null] or missing; marked and last to
    match, the entry gives the chat title. *)
Theorem refresh_marks_clicked_entry srv p old before e after :
  conversationHistory p = Some old ->
  get_conversations srv (requests p ++ [list_request]) =
    Parsed (before ++ e :: after)%list ->
  currentConversationId p = Str (to_string (entry_id e)) ->
  let p' := exec (loadConversationHistory srv) p in
  let marked := match entry_id e with
                | Num _ | Str _ => true
                | Undefined | Null => false
                end in
  nth_error (links p') (List.length before) =
    Some (mkLink ("/conversation/" ++ to_string (entry_id e)) (entry_title e)
            (to_string (entry_id e)) marked) /\
  (marked = true ->
   forallb (fun c => negb (loose_eq (entry_id c) (currentConversationId p)))
     after = true ->
   chatTitle p' = entry_title e).
Proof.
  intros Hside Hreply Hcur. cbv zeta. unfold exec, links.
  rewrite loadConversationHistory_run, Hside, Hreply. cbn [snd].
  destruct p as [cur box sc ti t sb eb side sl sm mi al path back als con reqs].
  cbn [currentConversationId] in *. subst cur. cbn -[append loose_eq]. split.
  - rewrite map_app, nth_error_app2; rewrite length_map; [|lia].
    rewrite Nat.sub_diag. cbn [nth_error map]. unfold link_of.
    now rewrite id_matches_data_id.
  - intros Hm Hafter. apply title_after_last; [|exact Hafter].
    now rewrite id_matches_data_id.
Qed.

Lemma refresh_marks_clicked_entry_witness :
  nth_error
    (links (exec (loadConversationHistory healthy)
              (exec (on_history_click healthy (Some 1)) on_conversation_5))) 1 =
  Some (mkLink "/conversation/7" "Recipes" "7" true).
Proof.
  exact (proj1 (refresh_marks_clicked_entry healthy
                  (exec (on_history_click healthy (Some 1)) on_conversation_5)
                  _ [mkEntry (Num 5) "Trip"] (mkEntry (Num 7) "Recipes") []
                  eq_refl eq_refl eq_refl)).
Defined.

Lemma init_convId_digits d :
  d <> "" -> all_digits d = true -> init_convId ("/conversation/" ++ d) = Str d.
Proof.
  intros Hne Hall. unfold init_convId.
  assert (Hat : match_at ("/conversation/" ++ d) = Some d).
  { unfold match_at.
    replace (strip_prefix "/conversation/" ("/conversation/" ++ d))
      with (Some d) by (symmetry; now apply strip_prefix_spec).
    pose proof (span_digits_exact d "" Hall eq_refl) as Hspan.
    rewrite append_empty in Hspan. rewrite Hspan. cbn [fst].
    destruct d; [congruence|reflexivity]. }
  change ("/conversation/" ++ d) with (String "/" ("conversation/" ++ d)) in *.
  cbn [match_conversation]. now rewrite Hat.
Qed.

Lemma decimal_of_natural n :
  (0 <= n)%Z ->
  to_string (Num n) <> "" /\ all_digits (to_string (Num n)) = true.
Proof.
  intros Hn. destruct n as [|p|p]; [split; [discriminate|reflexivity]| |lia].
  destruct (digits_of_positive p) as (Hne & Hall & _). now split.
Qed.

(** X9. The page is opened at [/conversation/{n}], [n] a natural number
    in decimal.  When the conversation loads and the list that then
    arrives has an entry with the id [n], [init] ends with the
    conversation rendered, the session id the text of [n], that entry's
    link active and, if no later entry matches, its title as the chat
    title. *)
Theorem init_opens_conversation srv p n data old before e after :
  (0 <= n)%Z ->
  let id := Str (to_string (Num n)) in
  app_layout p = true ->
  pathname p = "/conversation/" ++ to_string (Num n) ->
  conversationHistory p = Some old ->
  get_conversation srv (requests p ++ [load_request id]) = Parsed data ->
  truthy (conversation_error data) = false ->
  forallb known_sender (messages data) = true ->
  get_conversations srv (requests p ++ [load_request id; list_request]) =
    Parsed (before ++ e :: after)%list ->
  entry_id e = Num n ->
  forallb (fun c => negb (loose_eq (entry_id c) id)) after = true ->
  let p' := exec (init srv) p in
  currentConversationId p' = id /\
  rendered p' = map bubble_of (messages data) /\
  nth_error (links p') (List.length before) =
    Some (mkLink ("/conversation/" ++ to_string (Num n)) (entry_title e)
            (to_string (Num n)) true) /\
  chatTitle p' = entry_title e.
Proof.
  intros Hn id Hlayout Hpath Hside Hconv Herr Hms Hlist He Hafter. cbv zeta.
  destruct (decimal_of_natural n Hn) as (Hne & Hall).
  assert (Hv : truthy id = true).
  { subst id. cbn [truthy].
    destruct (String.eqb_spec (to_string (Num n)) ""); [contradiction|reflexivity]. }
  unfold exec, init, bind, read, spawn. rewrite Hlayout, Hpath.
  rewrite (init_convId_digits _ Hne Hall). fold id. cbn [snd]. unfold exec.
  rewrite (loadConversation_loaded srv id p data Hv Hconv Herr Hms). cbn [snd].
  rewrite loadConversationHistory_run. unfold rendered, links.
  destruct p as [cur box sc ti t sb eb side sl sm mi al path back als con reqs].
  cbn [conversationHistory requests] in *. subst side.
  cbn -[append loose_eq to_string].
  rewrite <- app_assoc. cbn [app]. rewrite Hlist.
  cbn -[append loose_eq to_string].
  assert (Hit : loose_eq (entry_id e) id = true).
  { rewrite He. subst id. apply (id_matches_data_id (Num n)). }
  split; [reflexivity|]. split; [apply rendered_bubbles|]. split.
  - rewrite map_app, nth_error_app2; rewrite length_map; [|lia].
    rewrite Nat.sub_diag. cbn [nth_error map]. unfold link_of.
    now rewrite Hit, He.
  - now apply title_after_last.
Qed.

Lemma init_opens_conversation_witness :
  nth_error (links (exec (init healthy) (page_at "/conversation/7"))) 1 =
    Some (mkLink "/conversation/7" "Recipes" "7" true) /\
  chatTitle (exec (init healthy) (page_at "/conversation/7")) = "Recipes".
Proof.
  destruct (init_opens_conversation healthy (page_at "/conversation/7") 7
              hello_thread [] [mkEntry (Num 5) "Trip"]
              (mkEntry (Num 7) "Recipes") [])
    as (_ & _ & Hlink & Htitle); try reflexivity; try discriminate.
  split; [exact Hlink | exact Htitle].
Defined.

Lemma toggle_twice v l :
  let f := fun a => set_active (loose_eq (Str (data_id a)) v) a in
  map f (map f l) = map f l.
Proof. cbv zeta. rewrite map_map. apply map_ext. intros a. reflexivity. Qed.

(** X10. Loading again the conversation that is on screen, the back end
    answering the same, changes nothing that is observed nor any sidebar
    link: it adds the request and one more entry behind the back
    button. *)
Theorem loadConversation_again srv p v data :
  truthy v = true ->
  get_conversation srv (requests p ++ [load_request v]) = Parsed data ->
  get_conversation srv (requests p ++ [load_request v; load_request v]) =
    Parsed data ->
  truthy (conversation_error data) = false ->
  forallb known_sender (messages data) = true ->
  let p1 := exec (loadConversation srv v) p in
  let p2 := exec (loadConversation srv v) p1 in
  observe p2 = observe p1 /\
  conversationHistory p2 = conversationHistory p1 /\
  p2 = push_location ("/conversation/" ++ to_string v)
         (add_request (load_request v) p1).
Proof.
  intros Hv H1 H2 Herr Hms. cbv zeta. unfold exec.
  rewrite (loadConversation_loaded srv v p data Hv H1 Herr Hms). cbn [snd].
  destruct p as [cur box sc ti t sb eb side sl sm mi al path back als con reqs].
  cbn [requests] in H2.
  erewrite (loadConversation_loaded srv v _ data Hv);
    [| cbn -[append]; rewrite <- app_assoc; exact H2 | exact Herr | exact Hms].
  unfold observe, rendered, suggestions_attached.
  cbn -[append loose_eq to_string].
  assert (Hside : option_map
            (map (fun a => set_active (loose_eq (Str (data_id a)) v) a))
            (option_map
               (map (fun a => set_active (loose_eq (Str (data_id a)) v) a)) side)
          = option_map
              (map (fun a => set_active (loose_eq (Str (data_id a)) v) a)) side).
  { destruct side as [l|]; [|reflexivity]. cbn [option_map]. f_equal.
    apply toggle_twice. }
  rewrite Hside. destruct sc, sb, eb; repeat split; reflexivity.
Qed.

Lemma loadConversation_again_witness :
  observe (exec (loadConversation healthy (Str "5")) on_conversation_5) =
  observe on_conversation_5.
Proof.
  exact (proj1 (loadConversation_again healthy
                  (exec (loadConversationHistory healthy) (page_at "/"))
                  (Str "5") hello_thread eq_refl eq_refl eq_refl eq_refl
                  eq_refl)).
Defined.

(** ** Invariants of a whole session *)












(** ** Theme and export menu *)

Lemma theme_agrees_applyTheme theme w : theme_agrees (applyTheme theme w).
Proof.
  destruct w as [d cls st [c|] eo bc hr]; split; cbn; try reflexivity;
    intros checked [=]; congruence.
Qed.

Lemma theme_fields_in_doc m w :
  root_class (in_doc m w) = root_class w /\
  stored_theme (in_doc m w) = stored_theme w /\
  themeToggle (in_doc m w) = themeToggle w /\
  exportOptions (in_doc m w) = exportOptions w /\
  href_assigned (in_doc m w) = href_assigned w.
Proof. destruct w; repeat split. Qed.

Lemma theme_agrees_handle srv e w :
  theme_agrees w -> theme_agrees (handle srv e w).
Proof.
  intros Hinv.
  assert (Hdoc : forall m, theme_agrees (in_doc m w)).
  { intros m. destruct (theme_fields_in_doc m w) as (H1 & H2 & H3 & _).
    unfold theme_agrees. now rewrite H1, H2, H3. }
  destruct e as [text| |classes text|hit| | | | |t|b m]; cbn [handle];
    try apply Hdoc.
  - destruct (suggestionsContainer (doc w)); [apply Hdoc|exact Hinv].
  - destruct (shareChatBtn (doc w)); [apply Hdoc|exact Hinv].
  - destruct w as [d cls st [c|] eo bc hr]; [|exact Hinv].
    unfold flip_theme, on_theme_change. cbn [option_map themeToggle].
    apply theme_agrees_applyTheme.
  - unfold on_export_menu_click.
    destruct (exportMenuBtn (doc w)), (exportOptions w); try exact Hinv.
    now destruct w.
  - unfold on_export_options_click.
    destruct (exportOptions w); [|exact Hinv].
    destruct (_ && _); [|exact Hinv]. now destruct w.
  - unfold on_document_click.
    destruct (exportMenuBtn (doc w)), (exportOptions w); try exact Hinv.
    destruct (_ && _); [|exact Hinv]. now destruct w.
Qed.

Lemma theme_after_startup srv w :
  root_class (startup srv w) = saved_theme w /\
  stored_theme (startup srv w) = Some (saved_theme w) /\
  themeToggle (startup srv w) =
    match themeToggle w with
    | Some _ => Some (saved_theme w =? "dark")
    | None => None
    end.
Proof.
  unfold startup. generalize (saved_theme w). intros th.
  destruct w as [d cls st tg eo bc hr]. cbn [applyTheme doc].
  destruct (app_layout d); repeat split.
Qed.

(** X12. From [init] on, whatever listeners are called, the class of the
    root element is the theme in the local storage, and the theme
    checkbox, where there is one, is checked exactly when that class is
    [dark]. *)
Theorem theme_agrees_always srv es w : theme_agrees (session srv es w).
Proof.
  unfold session.
  assert (H : theme_agrees (startup srv w)).
  { destruct (theme_after_startup srv w) as (H1 & H2 & H3).
    unfold theme_agrees. rewrite H1, H2, H3. split; [reflexivity|].
    destruct (themeToggle w); intros checked [=]; congruence. }
  revert H. generalize (startup srv w). clear w.
  induction es as [|e es IH]; intros w H; [exact H|].
  cbn [fold_left]. apply IH. now apply theme_agrees_handle.
Qed.

(** X13. A theme applied in one visit is the theme of the next: when the
    local storage still holds what [applyTheme] wrote, [init] gives the
    root element that class again, whatever else the new window starts
    with.  A theme that is the empty string, or no stored theme, gives
    [dark]. *)
Theorem theme_survives_reload srv theme w w' :
  stored_theme w' = stored_theme (applyTheme theme w) ->
  root_class (startup srv w') = (if theme =? "" then "dark" else theme) /\
  stored_theme (startup srv w') =
    Some (if theme =? "" then "dark" else theme) /\
  (forall before, themeToggle w' = Some before ->
   themeToggle (startup srv w') =
     Some ((if theme =? "" then "dark" else theme) =? "dark")).
Proof.
  intros Hstored.
  assert (Hsaved : saved_theme w' = if theme =? "" then "dark" else theme).
  { unfold saved_theme. rewrite Hstored. now destruct w. }
  destruct (theme_after_startup srv w') as (H1 & H2 & H3).
  rewrite H1, H2, H3, Hsaved. repeat split.
  intros before ->. reflexivity.
Qed.

Lemma theme_survives_reload_witness :
  root_class
    (startup healthy
       (mkWindow (page_at "/") "" (Some "light") (Some true) None false None))
  = "light".
Proof.
  exact (proj1 (theme_survives_reload healthy "light" (window_at "/")
                  (mkWindow (page_at "/") "" (Some "light") (Some true) None
                     false None) eq_refl)).
Defined.

(** A listener call that neither navigates nor opens the menu. *)
Ltac quiet :=
  split;
  [ congruence
  | split; [first [solve [auto] | intros; left; congruence] | discriminate] ].

(** X14. Only a click on an anchor of the export menu, while there is a
    session id, sends the window elsewhere: to the export URL of that
    session with the anchor's format, closing the menu.  No other listener
    navigates, and the menu is never opened but by its button; a click
    outside the button and the menu closes it. *)
Theorem export_menu_and_navigation srv e w :
  let w' := handle srv e w in
  let cur := currentConversationId (doc w) in
  (href_assigned w' <> href_assigned w ->
   exists t,
     e = ExportOptionClicked t /\ tagName t = "A" /\ truthy cur = true /\
     href_assigned w' = Some (export_url cur (data_format t)) /\
     exportOptions w' = Some false) /\
  (exportOptions w' = Some true ->
   exportOptions w = Some true \/ e = ExportMenuClicked) /\
  (e = DocumentClicked false false ->
   exportMenuBtn (doc w) <> None -> exportOptions w <> None ->
   exportOptions w' = Some false).
Proof.
  cbv zeta.
  assert (Hdoc : forall m,
            href_assigned (in_doc m w) = href_assigned w /\
            exportOptions (in_doc m w) = exportOptions w).
  { intros m. destruct (theme_fields_in_doc m w) as (_ & _ & _ & H1 & H2).
    now split. }
  destruct e as [text| |classes text|hit| | | | |t|b m]; cbn [handle];
    try (destruct (Hdoc (update (set_messageInput text))) as [-> ->]);
    try (destruct (Hdoc (on_submit srv)) as [-> ->]);
    try (destruct (Hdoc (on_history_click srv hit)) as [-> ->]);
    try (destruct (Hdoc on_close_modal) as [-> ->]);
    try (quiet).
  - destruct (suggestionsContainer (doc w));
      [destruct (Hdoc (on_suggestion_click srv classes text)) as [-> ->]|];
      (quiet).
  - destruct (shareChatBtn (doc w));
      [destruct (Hdoc (handleShare srv)) as [-> ->]|];
      (quiet).
  - destruct w as [d cls st [c|] eo bc hr]; cbn;
      (quiet).
  - unfold on_export_menu_click.
    destruct (exportMenuBtn (doc w)), (exportOptions w) eqn:Ho;
      try (quiet).
    destruct w; cbn. quiet.
  - unfold on_export_options_click.
    destruct (exportOptions w) eqn:Ho;
      [|split; [congruence|split; [rewrite Ho; discriminate|discriminate]]].
    destruct (tagName t =? "A") eqn:Ht; cbn [andb];
      [|quiet].
    destruct (truthy (currentConversationId (doc w))) eqn:Hcur;
      [|quiet].
    destruct w as [d cls st tg eo bc hr]. cbn in *.
    split; [|split; discriminate].
    intros _. exists t. apply String.eqb_eq in Ht. repeat split; assumption.
  - unfold on_document_click. split; [|split].
    + destruct (exportMenuBtn (doc w)), (exportOptions w);
        try congruence. destruct (_ && _); [|congruence].
      destruct w; cbn; congruence.
    + destruct (exportMenuBtn (doc w)); [|auto].
      destruct (exportOptions w) eqn:Ho; [|intros H; left; congruence].
      destruct (_ && _); [|intros H; left; congruence].
      destruct w; cbn; discriminate.
    + intros [= -> ->] Hb Ho.
      destruct (exportMenuBtn (doc w)); [|congruence].
      destruct (exportOptions w); [|congruence].
      destruct w; reflexivity.
Qed.

Lemma export_menu_and_navigation_witness :
  href_assigned
    (handle healthy (ExportOptionClicked (mkTarget "A" (Str "pdf")))
       (mkWindow on_conversation_5 "dark" (Some "dark") (Some true) (Some true)
          true None)) = Some "/conversations/5/export?format=pdf".
Proof.
  destruct (export_menu_and_navigation healthy
              (ExportOptionClicked (mkTarget "A" (Str "pdf")))
              (mkWindow on_conversation_5 "dark" (Some "dark") (Some true)
                 (Some true) true None)) as (H & _).
  destruct H as (t & Ht & _ & _ & Hhref & _); [discriminate|].
  injection Ht as <-. exact Hhref.
Defined.

(** ** Submitting the form *)

Lemma trim_start_blank s : trim_start s = "" <-> all_space s = true.
Proof.
  induction s as [|c s IH]; cbn; [tauto|].
  destruct (is_space c); cbn; [exact IH|]. split; discriminate.
Qed.







